(** * caddy-cgi: the CGI gateway adapter (src/cgi.go, src/windows_cgi.go)

    A shallow embedding of the Go code: the tolerant line reader and header
    parser of the Windows handler, its environment builder, the chunked-body
    reframing step of [CGI.ServeHTTP] and the flushing response writer.

    Go strings and byte slices are sequences of bytes, here [string] (a
    sequence of 8-bit [ascii]); Go maps are [gmap]s; [int] and [int64] are
    [Z], [int] being taken as 64 bits wide like [int64], with the
    wrap-around written out where the code adds. A Go result pair
    [(v, err)] is a pair whose second component is an [option error],
    [None] standing for [nil]. *)

From Stdlib Require Import ZArith Ascii String List Lia Bool DecimalString.
From stdpp Require Import base option list strings gmap fin_maps.

Local Open Scope string_scope.
Local Open Scope Z_scope.

(** ** Bytes and strings *)

Module Bytes.

Definition LF : ascii := "010"%char.
Definition CR : ascii := "013"%char.
Definition byte (n : nat) : ascii := ascii_of_nat n.

(** [len(s)] *)
Definition len (s : string) : Z := Z.of_nat (String.length s).

(** [append(line, b)] followed in the end by [string(line)] *)
Definition push (line : string) (b : ascii) : string := line +:+ String b "".

(** [s[:n]] for [n <= len(s)] *)
Fixpoint take (n : nat) (s : string) : string :=
  match n, s with
  | S n', String b rest => String b (take n' rest)
  | _, _ => ""
  end.

(** [s[n:]] for [n <= len(s)] *)
Fixpoint drop (n : nat) (s : string) : string :=
  match n, s with
  | S n', String _ rest => drop n' rest
  | _, _ => s
  end.

(** [s[i]] *)
Definition at_ (s : string) (i : nat) : option ascii := String.get i s.

Fixpoint contains (c : ascii) (s : string) : bool :=
  match s with
  | "" => false
  | String b rest => if Ascii.eqb b c then true else contains c rest
  end.

Fixpoint map (f : ascii -> ascii) (s : string) : string :=
  match s with
  | "" => ""
  | String b rest => String (f b) (map f rest)
  end.

End Bytes.

(** ** Errors and buffered readers *)

(** Go's [error] values as far as the code tells them apart: [io.EOF] and
    everything else. *)
Inductive error : Type :=
  | EOF
  | ErrOther (msg : string).

Definition Error (e : error) : string :=
  match e with
  | EOF => "EOF"
  | ErrOther msg => msg
  end.

#[global] Instance error_eq_dec : EqDecision error.
Proof. solve_decision. Defined.

(** A [*bufio.Reader] over a byte source: the bytes the source still
    delivers, and the error it answers with once they are used up (clean
    end of stream is [EOF]). *)
Record Reader : Type := mkReader {
  rd_data : string;
  rd_end : error
}.

Module bufio.

(** [Reader.ReadByte] *)
Definition ReadByte (r : Reader) : (ascii * option error) * Reader :=
  match rd_data r with
  | String b rest => ((b, None), mkReader rest (rd_end r))
  | "" => (("000"%char, Some (rd_end r)), r)
  end.

(** [Reader.Peek(n)]: the next [n] bytes without advancing; when fewer
    than [n] bytes are left it returns those and the source's error. *)
Definition Peek (n : nat) (r : Reader) : string * option error :=
  let p := Bytes.take n (rd_data r) in
  if (String.length p <? n)%nat then (p, Some (rd_end r)) else (p, None).

End bufio.

(** ** Line reader: [readWindowsLine] (windows_cgi.go) *)

(** The [for] loop of [readWindowsLine]; [line] is the accumulated line
    buffer, [data] what the reader still holds. It returns the result pair
    and the bytes left in the reader. *)
Fixpoint readWindowsLine_loop (e : error) (data : string) (line : string)
    {struct data} : (string * option error) * Reader :=
  match data with
  | "" =>
      (* reader.ReadByte() failed with [e] *)
      if decide (e = EOF) then
        if (0 <? Bytes.len line) then ((line, None), mkReader "" e)
        else (("", Some e), mkReader "" e)
      else (("", Some e), mkReader "" e)
  | String b rest =>
      let reader := mkReader rest e in
      if Ascii.eqb b Bytes.LF then
        ((line, None), reader)
      else if Ascii.eqb b Bytes.CR then
        let '(peek, err) := bufio.Peek 2 reader in
        if bool_decide (err = None) && (2 <=? Bytes.len peek)
           && bool_decide (Bytes.at_ peek 0 = Some Bytes.CR)
           && bool_decide (Bytes.at_ peek 1 = Some Bytes.LF) then
          let reader := snd (bufio.ReadByte reader) in
          let reader := snd (bufio.ReadByte reader) in
          ((line, None), reader)
        else if bool_decide (err = None) && (1 <=? Bytes.len peek)
                && bool_decide (Bytes.at_ peek 0 = Some Bytes.LF) then
          let reader := snd (bufio.ReadByte reader) in
          ((line, None), reader)
        else
          readWindowsLine_loop e rest (Bytes.push line b)
      else
        readWindowsLine_loop e rest (Bytes.push line b)
  end.

Definition readWindowsLine (reader : Reader) : (string * option error) * Reader :=
  readWindowsLine_loop (rd_end reader) (rd_data reader) "".

(** ** The Go library functions the code calls

    Modelled from the Go standard library, byte by byte. *)

Module strings.

(** First index of the byte [c] in [s], as [strings.Index] with a
    one-byte separator. *)
Fixpoint Index (s : string) (c : ascii) : option nat :=
  match s with
  | "" => None
  | String b rest =>
      if Ascii.eqb b c then Some 0%nat else S <$> Index rest c
  end.

(** [strings.SplitN(s, sep, 2)] for a one-byte separator: the text before
    the first separator and all the text after it, or [s] alone. *)
Definition SplitN2 (s : string) (sep : ascii) : list string :=
  match Index s sep with
  | Some i => [Bytes.take i s; Bytes.drop (S i) s]
  | None => [s]
  end.

(** [strings.Split(s, sep)] for a one-byte separator. *)
Fixpoint Split_from (cur : string) (s : string) (sep : ascii) : list string :=
  match s with
  | "" => [cur]
  | String b rest =>
      if Ascii.eqb b sep then cur :: Split_from "" rest sep
      else Split_from (Bytes.push cur b) rest sep
  end.
Definition Split (s : string) (sep : ascii) : list string := Split_from "" s sep.

(** [strings.Join] *)
Fixpoint Join (elems : list string) (sep : string) : string :=
  match elems with
  | [] => ""
  | [x] => x
  | x :: rest => x +:+ sep +:+ Join rest sep
  end.

(** [strings.ReplaceAll(s, old, new)] for one-byte [old] and [new]. *)
Definition ReplaceAll (s : string) (old new : ascii) : string :=
  Bytes.map (fun b => if Ascii.eqb b old then new else b) s.

Definition is_lower (c : ascii) : bool :=
  (97 <=? nat_of_ascii c)%nat && (nat_of_ascii c <=? 122)%nat.
Definition is_upper (c : ascii) : bool :=
  (65 <=? nat_of_ascii c)%nat && (nat_of_ascii c <=? 90)%nat.
Definition upper_byte (c : ascii) : ascii :=
  if is_lower c then ascii_of_nat (nat_of_ascii c - 32) else c.
Definition lower_byte (c : ascii) : ascii :=
  if is_upper c then ascii_of_nat (nat_of_ascii c + 32) else c.

(** [strings.ToUpper] and [strings.ToLower] on ASCII text: the letters
    a-z and A-Z are mapped, every other byte is kept. (Go also maps the
    letters outside ASCII; header names are ASCII tokens, and no letter
    outside ASCII lower-cases to a letter of the word "status".) *)
Definition ToUpper (s : string) : string := Bytes.map upper_byte s.
Definition ToLower (s : string) : string := Bytes.map lower_byte s.

(** The UTF-8 encodings of the runes for which [unicode.IsSpace] holds:
    tab, LF, VT, FF, CR, space, U+0085, U+00A0, U+1680, U+2000..U+200A,
    U+2028, U+2029, U+202F, U+205F, U+3000. *)
Definition space_runes : list (list nat) :=
  [ [9]; [10]; [11]; [12]; [13]; [32]; [194; 133]; [194; 160];
    [225; 154; 128];
    [226; 128; 128]; [226; 128; 129]; [226; 128; 130]; [226; 128; 131];
    [226; 128; 132]; [226; 128; 133]; [226; 128; 134]; [226; 128; 135];
    [226; 128; 136]; [226; 128; 137]; [226; 128; 138];
    [226; 128; 168]; [226; 128; 169]; [226; 128; 175];
    [226; 129; 159]; [227; 128; 128] ]%nat.

Fixpoint has_prefix (p : list nat) (s : list ascii) : bool :=
  match p, s with
  | [], _ => true
  | n :: p', b :: s' => Nat.eqb (nat_of_ascii b) n && has_prefix p' s'
  | _ :: _, [] => false
  end.

(** Width in bytes of the space rune [s] starts with ([runes] are the
    candidate encodings), 0 when it starts with none. *)
Definition space_width (runes : list (list nat)) (s : list ascii) : nat :=
  match List.find (fun p => has_prefix p s) runes with
  | Some p => List.length p
  | None => 0%nat
  end.

Fixpoint trim_left (fuel : nat) (runes : list (list nat)) (s : list ascii)
    : list ascii :=
  match fuel with
  | O => s
  | S fuel' =>
      match space_width runes s with
      | O => s
      | w => trim_left fuel' runes (skipn w s)
      end
  end.

(** [strings.TrimSpace]: all leading and all trailing space runes are
    cut off (the trailing ones are found on the reversed bytes). *)
Definition TrimSpace (s : string) : string :=
  let l := list_ascii_of_string s in
  let l := trim_left (List.length l) space_runes l in
  let r := trim_left (List.length l) (List.map (@rev nat) space_runes) (rev l) in
  string_of_list_ascii (rev r).

(** [strings.TrimPrefix] *)
Definition TrimPrefix (s prefix : string) : string :=
  if String.prefix prefix s then Bytes.drop (String.length prefix) s else s.

End strings.

Module strconv.

Definition digit (c : ascii) : option Z :=
  let n := nat_of_ascii c in
  if (48 <=? n)%nat && (n <=? 57)%nat then Some (Z.of_nat (n - 48)) else None.

Fixpoint digits (acc : Z) (s : string) : option Z :=
  match s with
  | "" => Some acc
  | String c rest =>
      match digit c with
      | Some d => digits (acc * 10 + d) rest
      | None => None
      end
  end.

(** [strconv.Atoi] on a short string (the code passes three bytes, far
    from the range error of long inputs): an optional sign, then one or
    more decimal digits; [None] is the syntax error. *)
Definition Atoi (s : string) : option Z :=
  match s with
  | "" => None
  | String c rest =>
      if Ascii.eqb c "-" then
        match rest with "" => None | _ => Z.opp <$> digits 0 rest end
      else if Ascii.eqb c "+" then
        match rest with "" => None | _ => digits 0 rest end
      else digits 0 s
  end.

(** [strconv.FormatInt(i, 10)] *)
Definition FormatInt (i : Z) : string := NilZero.string_of_int (Z.to_int i).

End strconv.

(** ** [http.Header] *)

Module textproto.

(** [validHeaderFieldByte]: the token bytes of RFC 7230. *)
Definition validHeaderFieldByte (c : ascii) : bool :=
  let n := nat_of_ascii c in
  ((48 <=? n) && (n <=? 57) || (97 <=? n) && (n <=? 122)
   || (65 <=? n) && (n <=? 90)
   || bool_decide (n ∈ [33; 35; 36; 37; 38; 39; 42; 43; 45; 46; 94; 95; 96; 124; 126]))%nat.

Fixpoint all_valid (s : string) : bool :=
  match s with
  | "" => true
  | String c rest => validHeaderFieldByte c && all_valid rest
  end.

(** The second loop of [canonicalMIMEHeaderKey]: upper case at the start
    and after each dash, lower case elsewhere. *)
Definition canonical_byte (upper : bool) (c : ascii) : ascii :=
  if upper && strings.is_lower c then strings.upper_byte c
  else if negb upper && strings.is_upper c then strings.lower_byte c
  else c.

Fixpoint canonical (upper : bool) (s : string) : string :=
  match s with
  | "" => ""
  | String c rest =>
      let c := canonical_byte upper c in
      String c (canonical (Ascii.eqb c "-") rest)
  end.

(** [textproto.CanonicalMIMEHeaderKey]: a key holding a byte that is not
    a token byte is returned as it is. *)
Definition CanonicalMIMEHeaderKey (s : string) : string :=
  if all_valid s then canonical true s else s.

End textproto.

(** [http.Header], a [map[string][]string]. *)
Abbreviation http_Header := (gmap string (list string)).

Module Header.

(** [h.Add(key, value)] *)
Definition Add (h : http_Header) (key value : string) : http_Header :=
  let key := textproto.CanonicalMIMEHeaderKey key in
  <[key := (default [] (h !! key) ++ [value])%list]> h.

(** [h.Get(key)] *)
Definition Get (h : http_Header) (key : string) : string :=
  match h !! textproto.CanonicalMIMEHeaderKey key with
  | Some (v :: _) => v
  | _ => ""
  end.

(** [h.Del(key)] *)
Definition Del (h : http_Header) (key : string) : http_Header :=
  delete (textproto.CanonicalMIMEHeaderKey key) h.

(** [h[key]], the values under a key ([nil] when absent) *)
Definition values (h : http_Header) (key : string) : list string :=
  default [] (h !! key).

End Header.

(** ** Header parser: [parseWindowsHeaders] (windows_cgi.go) *)

(** What [parseWindowsHeaders] returns: headers, status code and the
    reader positioned at the body, or [(nil, 0, nil, err)]. *)
Inductive parsed : Type :=
  | Parsed (headers : http_Header) (statusCode : Z) (body : Reader)
  | ParseError (err : error).

(** The part of the loop body under the comment "Parse header": what one
    non-empty line does to [headers] and [statusCode]. *)
Definition parseHeaderLine (line : string) (headers : http_Header) (statusCode : Z)
    : http_Header * Z :=
  match strings.SplitN2 line ":" with
  | [p0; p1] =>
      let key := strings.TrimSpace p0 in
      let value := strings.TrimSpace p1 in
      if String.eqb (strings.ToLower key) "status" then
        if 3 <=? Bytes.len value then
          match strconv.Atoi (Bytes.take 3 value) with
          | Some code => (headers, code)
          | None => (headers, statusCode)
          end
        else (headers, statusCode)
      else (Header.Add headers key value, statusCode)
  | _ => (headers, statusCode) (* continue: skip malformed headers *)
  end.

(** The [for] loop of [parseWindowsHeaders]. Every turn reads a line; the
    loop is cut after [fuel] turns ([None]). *)
Fixpoint parseWindowsHeaders_loop (fuel : nat) (buf : Reader)
    (headers : http_Header) (statusCode : Z) : option parsed :=
  match fuel with
  | O => None
  | S fuel' =>
      let '((line, err), buf') := readWindowsLine buf in
      match err with
      | Some e =>
          Some (ParseError (ErrOther ("error reading CGI headers: " +:+ Error e)))
      | None =>
          if Bytes.len line =? 0 then Some (Parsed headers statusCode buf')
          else
            let '(headers', statusCode') := parseHeaderLine line headers statusCode in
            parseWindowsHeaders_loop fuel' buf' headers' statusCode'
      end
  end.

(** The loop entered with the state [(headers, statusCode)]: a turn without
    error uses up at least one byte, so one turn more than there are bytes
    is enough ([parse_fuel_enough] below). *)
Definition parseWindowsHeaders_from (buf : Reader) (headers : http_Header)
    (statusCode : Z) : option parsed :=
  parseWindowsHeaders_loop (S (String.length (rd_data buf))) buf headers statusCode.

Definition parseWindowsHeaders (reader : Reader) : option parsed :=
  parseWindowsHeaders_from reader ∅ 200.

(** The terminators CR LF and LF as strings. *)
Definition crlf : string := String Bytes.CR (String Bytes.LF "").
Definition LFs : string := String Bytes.LF "".

(** A [range] over a Go map yields its entries in an order the language
    leaves open: any arrangement of the entries can come out. *)
Definition map_range {V : Type} (m : gmap string V) (order : list (string * V)) : Prop :=
  order ≡ₚ map_to_list m.

(** [WindowsCGIHandler.ServeHTTP], the loop under "Set headers": every
    value of every parsed key is added to the response's header map.
    [order] is the order in which the [range] yields the parsed entries. *)
Definition setHeaders (order : list (string * list string)) (rw : http_Header)
    : http_Header :=
  foldl (fun rw '(key, values) =>
           foldl (fun rw value => Header.Add rw key value) rw values)
        rw order.

(** ** Requests and handlers *)

(** The request body, an [io.ReadCloser]: the stream as it arrives, the
    in-memory buffer behind [io.NopCloser], or the temporary file rewound
    to its start. *)
Inductive ReadCloser : Type :=
  | BodyStream (src : Reader)
  | BodyBuffer (buf : string)
  | BodyFile (name : string).

(** The fields of [http.Request] (and of its [URL]) that the code reads or
    writes; [TLS] tells whether [req.TLS != nil]. *)
Record Request : Type := mkRequest {
  Method : string;
  URL_Path : string;
  URL_RawQuery : string;
  Proto : string;
  Header : http_Header;
  Body : ReadCloser;
  ContentLength : Z;
  TransferEncoding : list string;
  Host : string;
  RemoteAddr : string;
  TLS : bool
}.

(** [cgi.Handler] of net/http/cgi, the fields the code sets. *)
Record cgi_Handler : Type := mkHandler {
  Path : string;
  Root : string;
  Dir : string;
  Env : list string;
  InheritEnv : list string;
  Args : list string
}.

Record WindowsCGIHandler : Type := { Handler : cgi_Handler }.

(** ** Environment builder: [buildEnv], [getPort] (windows_cgi.go) *)

Definition getPort (req : Request) : string :=
  match strings.Split (Host req) ":" with
  | _ :: p1 :: _ => p1
  | _ => if TLS req then "443" else "80"
  end.

(** The thirteen entries [env] is initialised with. *)
Definition fixedEnv (req : Request) : list string :=
  [ "REQUEST_METHOD=" +:+ Method req;
    "SCRIPT_NAME=" +:+ URL_Path req;
    "PATH_INFO=" +:+ URL_Path req;
    "QUERY_STRING=" +:+ URL_RawQuery req;
    "CONTENT_TYPE=" +:+ Header.Get (Header req) "Content-Type";
    "CONTENT_LENGTH=" +:+ strconv.FormatInt (ContentLength req);
    "SERVER_NAME=" +:+ Host req;
    "SERVER_PORT=" +:+ getPort req;
    "SERVER_PROTOCOL=" +:+ Proto req;
    "SERVER_SOFTWARE=caddy-cgi";
    "GATEWAY_INTERFACE=CGI/1.1";
    "REMOTE_ADDR=" +:+ RemoteAddr req;
    "REMOTE_HOST=" +:+ RemoteAddr req ].

(** One turn of the loop "Add HTTP headers as CGI variables". *)
Definition addHeaderVar (env : list string) (kv : string * list string) : list string :=
  let '(key, values) := kv in
  match values with
  | v0 :: _ =>
      let key := strings.ToUpper (strings.ReplaceAll key "-" "_") in
      (env ++ ["HTTP_" +:+ key +:+ "=" +:+ v0])%list
  | [] => env
  end.

(** One turn of the loop "Add inherited environment variables";
    [Getenv] is [os.Getenv]. *)
Definition addInherited (Getenv : string -> string) (env : list string) (key : string)
    : list string :=
  let value := Getenv key in
  if String.eqb value "" then env else (env ++ [key +:+ "=" +:+ value])%list.

(** [buildEnv]; [order] is the order in which [range req.Header] yields
    the request headers. *)
Definition buildEnv (h : WindowsCGIHandler) (req : Request)
    (order : list (string * list string)) (Getenv : string -> string) : list string :=
  let env := fixedEnv req in
  let env := foldl addHeaderVar env order in
  let env := (env ++ Env (Handler h))%list in
  let env := foldl (addInherited Getenv) env (InheritEnv (Handler h)) in
  env.

(** The name of an entry [KEY=VALUE]: the text before the first [=]. *)
Definition env_key (entry : string) : string :=
  match strings.Index entry "=" with
  | Some i => Bytes.take i entry
  | None => entry
  end.

(** ** The environment of a started process: [exec.Cmd] (os/exec)

    [cmd.Start()] does not pass [cmd.Env] on as it is: [c.environ()]
    removes repeated keys ([dedupEnv]) and, on Windows, adds SYSTEMROOT
    ([addCriticalEnv]); [Start] returns the error of [environ] without
    starting anything. Modelled from the Go standard library.
    [strings.ToLower] and [strings.EqualFold] are parameters here: the
    keys of an environment may hold any letter of Unicode. *)

Module exec.

(** Where the key of an entry ends: at the first [=], and for an entry
    that starts with [=] at the one after it,
    [i = strings.Index(kv[1:], "=") + 1]; [None] is the [i < 0] of an
    entry without [=]. *)
Definition key_end (kv : string) : option nat :=
  match strings.Index kv "=" with
  | Some O =>
      match strings.Index (Bytes.drop 1 kv) "=" with
      | Some j => Some (S j)
      | None => Some O
      end
  | i => i
  end.

(** The key of an entry, [kv[:i]]. *)
Definition key (kv : string) : option string :=
  (fun i => Bytes.take i kv) <$> key_end kv.

(** One turn of the loop of [dedupEnvCase], which runs from the last entry
    to the first: [out] collects the entries kept, [saw] the keys met. *)
Definition dedup_step (ToLower : string -> string) (caseInsensitive nulOK : bool)
    (st : list string * gset string * option error) (kv : string)
    : list string * gset string * option error :=
  let '(out, saw, err) := st in
  if negb nulOK && Bytes.contains "000"%char kv
  then (out, saw, Some (ErrOther "exec: environment variable contains NUL"))
  else
    match key_end kv with
    | None => if String.eqb kv "" then st else ((out ++ [kv])%list, saw, err)
    | Some i =>
        let k := Bytes.take i kv in
        let k := if caseInsensitive then ToLower k else k in
        if bool_decide (k ∈ saw) then st
        else ((out ++ [kv])%list, {[ k ]} ∪ saw, err)
    end.

(** [dedupEnvCase(caseInsensitive, nulOK, env)]: of the entries with the
    same key the last one is kept, at its place; [out] is built in
    reverse and turned round at the end. *)
Definition dedupEnvCase (ToLower : string -> string) (caseInsensitive nulOK : bool)
    (env : list string) : list string * option error :=
  let '(out, _, err) :=
    foldl (dedup_step ToLower caseInsensitive nulOK) ([], ∅, None) (rev env) in
  (rev out, err).

(** [dedupEnv(env)] *)
Definition dedupEnv (ToLower : string -> string) (GOOS : string) (env : list string)
    : list string * option error :=
  dedupEnvCase ToLower (String.eqb GOOS "windows") (String.eqb GOOS "plan9") env.

(** [addCriticalEnv(env)]; the key is here what [strings.Cut(kv, "=")]
    cuts off. *)
Definition addCriticalEnv (EqualFold : string -> string -> bool) (GOOS : string)
    (Getenv : string -> string) (env : list string) : list string :=
  if negb (String.eqb GOOS "windows") then env
  else if existsb (fun kv =>
                     match strings.Index kv "=" with
                     | Some i => EqualFold (Bytes.take i kv) "SYSTEMROOT"
                     | None => false
                     end) env
  then env
  else (env ++ ["SYSTEMROOT=" +:+ Getenv "SYSTEMROOT"])%list.

(** [c.environ()] for a command whose [Env] is set (not nil): the
    environment of the process, and the error that keeps [Start] from
    starting it. *)
Definition environ (ToLower : string -> string) (EqualFold : string -> string -> bool)
    (GOOS : string) (Getenv : string -> string) (env : list string)
    : list string * option error :=
  let '(env, err) := dedupEnv ToLower GOOS env in
  (addCriticalEnv EqualFold GOOS Getenv env, err).

End exec.

(** ** The handler of cgi.go *)

(** Result of a Go call that can return normally, return an error, or
    panic. *)
Inductive outcome (A : Type) : Type :=
  | Returned (a : A)
  | Failed (err : error)
  | Panicked (msg : string).
Arguments Returned {A} a.
Arguments Failed {A} err.
Arguments Panicked {A} msg.

(** Modelled from the spec: the configuration struct [CGI], whose
    declaration is not among the sources. The fields are those of the
    configuration surface (executable path, argument list, working
    directory, script-name prefix, extra environment entries, pass-through
    names or the pass-all flag, buffer limit as a byte count,
    unbuffered-output flag, inspection toggle), under the names by which
    [ServeHTTP] reads them; [cfg_Args] is the field [Args]. [BufferLimit]
    is the [int64] that [io.CopyN] takes: a number from [-2^63] below
    [2^63]. *)
Record CGI : Type := mkCGI {
  Executable : string;
  WorkingDirectory : string;
  ScriptName : string;
  cfg_Args : list string;
  Envs : list string;
  PassEnvs : list string;
  PassAll : bool;
  BufferLimit : Z;
  UnbufferedOutput : bool;
  Inspect : bool
}.

(** A value of type [any] as [ServeHTTP] looks at it: a string or not. *)
Inductive any : Type :=
  | AnyString (s : string)
  | AnyOther.

(** [*caddy.Replacer], the three methods the handler calls. *)
Class Replacer (R : Type) : Type := {
  repl_Get : R -> string -> option any;
  repl_Set : R -> string -> string -> R;
  repl_ReplaceAll : R -> string -> string -> string
}.

(** [passAll]: the names of the entries [environ] of [os.Environ()]. *)
Definition passAll (environ : list string) : list string :=
  foldl (fun list str =>
           match strings.Index str "=" with
           | Some pos => if (0 <? pos)%nat then (list ++ [Bytes.take pos str])%list else list
           | None => list
           end) [] environ.

(** *** Files and copying *)

(** The part of the operating system the reframing step touches: the files
    by name, the name [os.CreateTemp] picks, and the errors the file
    operations answer with ([None]: they succeed). *)
Record FS : Type := mkFS {
  fs_files : gmap string string;
  fs_temp_name : string;
  fs_create_err : option error;
  fs_write_err : option error;
  fs_seek_err : option error
}.

Definition fs_with_files (fs : FS) (files : gmap string string) : FS :=
  mkFS files (fs_temp_name fs) (fs_create_err fs) (fs_write_err fs) (fs_seek_err fs).

Module os.

(** [os.CreateTemp("", "cgi_body_*")] *)
Definition CreateTemp (fs : FS) : (string * option error) * FS :=
  match fs_create_err fs with
  | Some e => (("", Some e), fs)
  | None =>
      ((fs_temp_name fs, None),
       fs_with_files fs (<[fs_temp_name fs := ""]> (fs_files fs)))
  end.

(** [f.Write(b)] on the file called [name], appending at its end. *)
Definition Write (fs : FS) (name : string) (b : string) : (Z * option error) * FS :=
  match fs_write_err fs with
  | Some e => ((0, Some e), fs)
  | None =>
      ((Bytes.len b, None),
       fs_with_files fs (<[name := default "" (fs_files fs !! name) +:+ b]> (fs_files fs)))
  end.

(** [f.Seek(0, io.SeekStart)] *)
Definition Seek (fs : FS) (name : string) : option error := fs_seek_err fs.

(** [os.Remove(name)] *)
Definition Remove (fs : FS) (name : string) : FS :=
  fs_with_files fs (delete name (fs_files fs)).

End os.

(** [int64] and [int] arithmetic: the sum is reduced into
    [-2^63, 2^63). *)
Definition wrap64 (z : Z) : Z := (z + 2 ^ 63) mod 2 ^ 64 - 2 ^ 63.

(** *** The buffer *)

(** The memory side of the chunked branch: the capacity of the buffer that
    [bufPool.Get()] hands out (after [Reset] its length is 0); the answer
    of the runtime to [make([]byte, n)], [false] when it refuses the
    bytes; and whether the allocations go through by which [ReadFrom]
    enlarges a buffer that is too small for what it reads. *)
Record Memory : Type := mkMemory {
  buf_Cap : Z;
  makeslice : Z -> bool;
  ReadFrom_grows : bool
}.

Module Buffer.

Definition MinRead : Z := 512.
Definition smallBufferSize : Z := 64.
Definition maxInt : Z := 2 ^ 63 - 1.

(** [b.Grow(n)] on an empty buffer of capacity [c] (a capacity of 0: the
    buffer has no slice yet), as in Go's source:
    [if n < 0 { panic("bytes.Buffer.Grow: negative count") }], then
    [b.grow(n)]: the capacity suffices ([tryGrowByReslice]); or the first
    small slice is made; or half the capacity suffices; or
    [if c > maxInt-c-n { panic(ErrTooLarge) }]; or [growSlice] asks for
    [max(n, 2*c)] bytes, and a refusal is the panic [ErrTooLarge].
    Returns the capacity the buffer has at least afterwards (the
    allocator may round it up). *)
Definition Grow (mem : Memory) (c n : Z) : outcome Z :=
  if n <? 0 then Panicked "bytes.Buffer.Grow: negative count"
  else if n <=? c then Returned c
  else if (c =? 0) && (n <=? smallBufferSize) then Returned smallBufferSize
  else if n <=? c / 2 then Returned c
  else if maxInt - c - n <? c then Panicked "bytes.Buffer: too large"
  else if makeslice mem (Z.max n (2 * c)) then Returned (Z.max n (2 * c))
  else Panicked "bytes.Buffer: too large".

(** The memory side of [b.ReadFrom(r)] on a buffer of capacity [c] that
    ends up with [written] bytes: before every read it makes room for
    [MinRead] more bytes ([b.grow(MinRead)]). With capacity for the bytes
    read and [MinRead] more, no allocation takes place; short of it, what
    is allocated depends on the portions in which the source hands out its
    bytes, and the runtime decides; a refusal is the panic
    [ErrTooLarge]. *)
Definition ReadFrom (mem : Memory) (c written : Z) : outcome unit :=
  if written + MinRead <=? c then Returned tt
  else if ReadFrom_grows mem then Returned tt
  else Panicked "bytes.Buffer: too large".

End Buffer.

Module io.

(** What [io.CopyN(dst, src, n)] copies and returns, as in Go's source:
    copy from [LimitReader(src, n)] until it ends, then
    [if written == n { return n, nil }] and
    [if written < n && err == nil { err = EOF }].
    Returns the bytes copied, their number and the error. *)
Definition CopyN_bytes (src : Reader) (n : Z) : (string * Z * option error) * Reader :=
  let got := Bytes.take (Z.to_nat n) (rd_data src) in
  let src' := mkReader (Bytes.drop (Z.to_nat n) (rd_data src)) (rd_end src) in
  let written := Bytes.len got in
  (* the limited reader ends cleanly at its limit; before it, with the
     source's own end *)
  let err := if written <? n
             then (if decide (rd_end src = EOF) then None else Some (rd_end src))
             else None in
  if written =? n then ((got, n, None), src')
  else if (written <? n) && bool_decide (err = None) then ((got, written, Some EOF), src')
  else ((got, written, err), src').

(** [io.CopyN(buf, src, n)] into a [bytes.Buffer] of capacity [c]: the
    copy is [buf.ReadFrom], which panics when the buffer cannot take the
    bytes. *)
Definition CopyN (mem : Memory) (c : Z) (src : Reader) (n : Z)
    : outcome ((string * Z * option error) * Reader) :=
  let res := CopyN_bytes src n in
  match Buffer.ReadFrom mem c res.1.1.2 with
  | Returned _ => Returned res
  | Failed e => Failed e
  | Panicked msg => Panicked msg
  end.

(** [io.CopyBuffer(f, src, buf)] into the file [name]: it panics on a
    scratch buffer that is not nil and has length zero, and otherwise
    copies all that [src] still delivers. *)
Definition CopyBuffer (fs : FS) (name : string) (src : Reader) (buf : string)
    : outcome (Z * option error) * FS :=
  if Bytes.len buf =? 0 then (Panicked "empty buffer in CopyBuffer", fs)
  else
    let '((written, werr), fs') :=
      if Bytes.len (rd_data src) =? 0 then ((0, None), fs)
      else os.Write fs name (rd_data src) in
    match werr with
    | Some e => (Returned (written, Some e), fs')
    | None =>
        (Returned (written, if decide (rd_end src = EOF) then None else Some (rd_end src)),
         fs')
    end.

End io.

(** The bytes a body delivers when read. *)
Definition body_reader (body : ReadCloser) (fs : FS) : Reader :=
  match body with
  | BodyStream src => src
  | BodyBuffer buf => mkReader buf EOF
  | BodyFile name => mkReader (default "" (fs_files fs !! name)) EOF
  end.

(** *** [CGI.ServeHTTP] (cgi.go) *)

(** The last statements of the chunked branch: the request with its new
    body, [TransferEncoding = nil], no [Transfer-Encoding] header, and the
    size as [Content-Length] header and [ContentLength] field. *)
Definition reframed (r : Request) (body : ReadCloser) (size : Z) : Request :=
  let header := Header.Del (Header r) "Transfer-Encoding" in
  let sizeStr := strconv.FormatInt size in
  let header := Header.Add header "Content-Length" sizeStr in
  mkRequest (Method r) (URL_Path r) (URL_RawQuery r) (Proto r) header body size []
            (Host r) (RemoteAddr r) (TLS r).

(** [err != nil && err != io.EOF]: the error, when it is one to return. *)
Definition failure (err : option error) : option error :=
  match err with
  | Some e => if decide (e = EOF) then None else Some e
  | None => None
  end.

(** The buffer of the chunked branch: taken from the pool and reset, it
    is grown when its capacity is below the limit,
    [if buf.Cap() < int(c.BufferLimit) { buf.Grow(int(c.BufferLimit) + bytes.MinRead) }].
    Returns its capacity. *)
Definition reserve (c : CGI) (mem : Memory) : outcome Z :=
  if buf_Cap mem <? BufferLimit c
  then Buffer.Grow mem (buf_Cap mem) (wrap64 (BufferLimit c + Buffer.MinRead))
  else Returned (buf_Cap mem).

(** The work-around for chunked transfer encodings, statement by
    statement. It returns the request to go on with and the temporary file
    whose removal is deferred to the return of [ServeHTTP]; when it fails
    or panics after the file was created, the deferred [os.Remove] has
    run. A panic of the buffer comes before any file is created. *)
Definition reframe (c : CGI) (r : Request) (mem : Memory) (fs : FS)
    : outcome (Request * option string) * FS :=
  match TransferEncoding r with
  | te0 :: _ =>
      if String.eqb te0 "chunked" then
        let src := body_reader (Body r) fs in
        match reserve c mem with
        | Panicked msg => (Panicked msg, fs)
        | Failed e => (Failed e, fs)
        | Returned cap =>
        match io.CopyN mem cap src (BufferLimit c) with
        | Panicked msg => (Panicked msg, fs)
        | Failed e => (Failed e, fs)
        | Returned ((buf, size, err), src) =>
        if failure err is Some e then (Failed e, fs)
        else if size =? BufferLimit c then
          let '((tempfile, err), fs) := os.CreateTemp fs in
          match err with
          | Some e => (Failed e, fs)
          | None =>
              let '((_, err), fs) := os.Write fs tempfile buf in
              match err with
              | Some e => (Failed e, os.Remove fs tempfile)
              | None =>
                  match io.CopyBuffer fs tempfile src buf with
                  | (Panicked msg, fs) => (Panicked msg, os.Remove fs tempfile)
                  | (Failed e, fs) => (Failed e, os.Remove fs tempfile)
                  | (Returned (_, Some e), fs) => (Failed e, os.Remove fs tempfile)
                  | (Returned (remainingSize, None), fs) =>
                      let size := wrap64 (size + remainingSize) in
                      match os.Seek fs tempfile with
                      | Some e => (Failed e, os.Remove fs tempfile)
                      | None =>
                          (Returned (reframed r (BodyFile tempfile) size, Some tempfile), fs)
                      end
                  end
              end
          end
        else
          (Returned (reframed r (BodyBuffer buf) size, None), fs)
        end end
      else (Returned (r, None), fs)
  | [] => (Returned (r, None), fs)
  end.

(** What [ServeHTTP] hands to [cgiHandler.ServeHTTP] (or to [inspect]). *)
Record invocation : Type := mkInvocation {
  inv_handler : cgi_Handler;
  inv_request : Request;
  inv_instant : bool;
  inv_inspect : bool;
  inv_tempfile : option string
}.

(** [CGI.ServeHTTP] up to the call of the CGI handler: the handler is
    filled in, the request is reframed, and both are handed on. [environ]
    is [os.Environ()]. *)
Definition CGI_ServeHTTP {R : Type} `{Replacer R} (c : CGI) (repl : R) (r : Request)
    (mem : Memory) (fs : FS) (environ : list string) : outcome invocation * FS :=
  let username :=
    match repl_Get repl "http.auth.user.id" with
    | Some (AnyString usernameVal) => usernameVal
    | _ => ""
    end in
  let scriptName := repl_ReplaceAll repl (ScriptName c) "" in
  let scriptPath := strings.TrimPrefix (URL_Path r) scriptName in
  let root := "/" in
  let repl := repl_Set repl "root" root in
  let repl := repl_Set repl "path" scriptPath in
  let path := repl_ReplaceAll repl (Executable c) "" in
  let args := List.map (fun str => repl_ReplaceAll repl str "") (cfg_Args c) in
  let env :=
    [ "PATH_INFO=" +:+ scriptPath;
      "SCRIPT_FILENAME=" +:+ path;
      "SCRIPT_NAME=" +:+ scriptName;
      "SCRIPT_EXEC=" +:+ path +:+ " " +:+ strings.Join args " ";
      "REMOTE_USER=" +:+ username ] in
  match reframe c r mem fs with
  | (Failed e, fs) => (Failed e, fs)
  | (Panicked msg, fs) => (Panicked msg, fs)
  | (Returned (r, tempfile), fs) =>
      let env := (env ++ List.map (fun e => repl_ReplaceAll repl e "") (Envs c))%list in
      let inheritEnv := if PassAll c then passAll environ else PassEnvs c in
      (Returned
         (mkInvocation
            (mkHandler path root (WorkingDirectory c) env inheritEnv args)
            r (UnbufferedOutput c) (Inspect c) tempfile),
       fs)
  end.

(** The deferred [os.Remove] that runs when [ServeHTTP] returns. *)
Definition CGI_ServeHTTP_return (inv : invocation) (fs : FS) : FS :=
  match inv_tempfile inv with
  | Some name => os.Remove fs name
  | None => fs
  end.

(** ** Response writer adapter: [instantWriter] (cgi.go) *)

(** [http.ResponseWriter] as a state: [rw_Write] is its [Write];
    [rw_Flush] is the [Flush] of its [http.Flusher] side, [None] when the
    writer is no [http.Flusher]. *)
Class ResponseWriter (W : Type) : Type := {
  rw_Write : W -> string -> (Z * option error) * W;
  rw_Flush : option (W -> W)
}.

Record instantWriter (W : Type) : Type := { iw_ResponseWriter : W }.
Arguments iw_ResponseWriter {W} _.

(** [instantWriter.Write]; the type assertion panics when the wrapped
    writer is no [http.Flusher]. *)
Definition instantWriter_Write {W : Type} `{ResponseWriter W} (iw : instantWriter W)
    (b : string) : outcome (Z * option error) * instantWriter W :=
  let '((n, err), w) := rw_Write (iw_ResponseWriter iw) b in
  match rw_Flush with
  | Some Flush => (Returned (n, err), {| iw_ResponseWriter := Flush w |})
  | None => (Panicked "interface conversion: not an http.Flusher", {| iw_ResponseWriter := w |})
  end.

(** A response writer that keeps a log of the calls made on it; it fails
    every write with [rec_fail] when that is set. *)
Inductive call : Type :=
  | CallWrite (b : string) (n : Z) (err : option error)
  | CallFlush.

Record recorder : Type := mkRecorder {
  rec_fail : option error;
  rec_calls : list call
}.

#[global] Instance recorder_ResponseWriter : ResponseWriter recorder := {
  rw_Write w b :=
    let res := match rec_fail w with
               | Some e => (0, Some e)
               | None => (Bytes.len b, None)
               end in
    (res, mkRecorder (rec_fail w) (rec_calls w ++ [CallWrite b (fst res) (snd res)])%list);
  rw_Flush := Some (fun w => mkRecorder (rec_fail w) (rec_calls w ++ [CallFlush])%list)
}.

(** A replacer without placeholders, for the examples. *)
#[global] Instance unit_Replacer : Replacer unit := {
  repl_Get _ _ := None;
  repl_Set r _ _ := r;
  repl_ReplaceAll _ input _ := input
}.

(** ** Vocabulary of the statements *)

(** The key and the value the parser takes from a line: the trimmed text
    before and after the first colon; [None] for a line without colon. *)
Definition line_key_value (line : string) : option (string * string) :=
  match strings.SplitN2 line ":" with
  | [p0; p1] => Some (strings.TrimSpace p0, strings.TrimSpace p1)
  | _ => None
  end.

(** What a line adds to the header mapping: the key it is filed under and
    the value; nothing for a line without colon and for a status line. *)
Definition line_entry (line : string) : option (string * string) :=
  match line_key_value line with
  | Some (key, value) =>
      if String.eqb (strings.ToLower key) "status" then None
      else Some (textproto.CanonicalMIMEHeaderKey key, value)
  | None => None
  end.

(** The values the lines give to the key [k], first line first. *)
Definition values_of (k : string) (lines : list string) : list string :=
  omap (fun line =>
          match line_entry line with
          | Some (k', v) => if decide (k' = k) then Some v else None
          | None => None
          end) lines.

(** The distinct keys of the lines in the order of their first
    appearance. *)
Fixpoint first_appearance (seen : list string) (keys : list string) : list string :=
  match keys with
  | [] => []
  | k :: keys =>
      if decide (k ∈ seen) then first_appearance seen keys
      else k :: first_appearance (k :: seen) keys
  end.
Definition insertion_order (lines : list string) : list string :=
  first_appearance [] (omap (fun line => fst <$> line_entry line) lines).

(** [block_lines buf lines body]: read from [buf], the header block is
    [lines], then comes the empty line, and [body] is what is left. *)
Inductive block_lines : Reader -> list string -> Reader -> Prop :=
  | block_end (buf body : Reader) :
      readWindowsLine buf = (("", None), body) ->
      block_lines buf [] body
  | block_line (buf buf' body : Reader) (line : string) (lines : list string) :
      readWindowsLine buf = ((line, None), buf') ->
      line <> "" ->
      block_lines buf' lines body ->
      block_lines buf (line :: lines) body.

(** The loop body applied to the lines of a block, one after the other. *)
Definition parseHeaderLines (lines : list string) (headers : http_Header) (statusCode : Z)
    : http_Header * Z :=
  foldl (fun st line => parseHeaderLine line st.1 st.2) (headers, statusCode) lines.

(** The variable a request header gives rise to: [HTTP_] and the name in
    upper case with [_] for [-], with the first value; nothing for a
    header without values. *)
Definition headerVar (kv : string * list string) : option string :=
  match kv.2 with
  | v0 :: _ =>
      Some ("HTTP_" +:+ strings.ToUpper (strings.ReplaceAll kv.1 "-" "_") +:+ "=" +:+ v0)
  | [] => None
  end.

(** The variable an inherited name gives rise to: nothing when the
    process environment has no (or an empty) value for it. *)
Definition inheritedVar (Getenv : string -> string) (key : string) : option string :=
  if String.eqb (Getenv key) "" then None else Some (key +:+ "=" +:+ Getenv key).

(** The buffer takes [size] bytes under the limit of [c]: neither
    [Grow], where the code calls it, nor the growth within [ReadFrom]
    panics. *)
Definition buffer_takes (c : CGI) (mem : Memory) (size : Z) : Prop :=
  exists cap, reserve c mem = Returned cap /\ Buffer.ReadFrom mem cap size = Returned tt.

(** The names of the thirteen fixed variables. *)
Definition fixedKeys : list string :=
  [ "REQUEST_METHOD"; "SCRIPT_NAME"; "PATH_INFO"; "QUERY_STRING"; "CONTENT_TYPE";
    "CONTENT_LENGTH"; "SERVER_NAME"; "SERVER_PORT"; "SERVER_PROTOCOL";
    "SERVER_SOFTWARE"; "GATEWAY_INTERFACE"; "REMOTE_ADDR"; "REMOTE_HOST" ].

(** ** Inputs of the examples *)

Definition block_AABA : string :=
  "Set-Cookie: a=1" +:+ crlf +:+ "X-B: 2" +:+ LFs +:+ "set-cookie: c=3" +:+ crlf
  +:+ crlf +:+ "body".

Definition block_AB : string := "A: 1" +:+ LFs +:+ "B: 2" +:+ LFs +:+ LFs.
Definition block_BA : string := "B: 2" +:+ LFs +:+ "A: 1" +:+ LFs +:+ LFs.

(** Header blocks that start with a status line and with a line without
    colon, and what is left of them behind that line. *)
Definition block_status : string :=
  "Status: 404 Not Found" +:+ LFs +:+ "X: y" +:+ LFs +:+ LFs.
Definition block_nocolon : string :=
  "no separator here" +:+ LFs +:+ "X: y" +:+ LFs +:+ LFs +:+ "body".
Definition block_status_twice : string :=
  "Status: abc" +:+ LFs +:+ "status : 200" +:+ LFs +:+ "X: y" +:+ LFs +:+ LFs.

(** A GET request for [/cgi/hello] with the one header [X-Foo: bar, baz]. *)
Definition req_xfoo : Request :=
  mkRequest "GET" "/cgi/hello" "a=b" "HTTP/1.1" {[ "X-Foo" := ["bar"; "baz"] ]}
            (BodyBuffer "") 0 [] "example.org:8080" "10.0.0.1:5000" false.

(** A handler without variables of its own. *)
Definition h_plain : WindowsCGIHandler :=
  {| Handler := mkHandler "/bin/hello" "/" "" [] [] [] |}.

(** A configuration that runs [/bin/hello] under the prefix [/cgi], with
    the given buffer limit. *)
Definition cgi_limit (limit : Z) : CGI :=
  mkCGI "/bin/hello" "" "/cgi" [] [] [] false limit false false.
Definition cgi_hello : CGI := cgi_limit 4.

(** A response writer whose writes fail. *)
Definition broken_writer : recorder := mkRecorder (Some (ErrOther "broken pipe")) [].

(** A file system in which every operation succeeds. *)
Definition fs_ok : FS := mkFS ∅ "/tmp/cgi_body_1" None None None.

(** A pool that hands out a buffer without capacity, under a runtime that
    grants up to [2^47] bytes at a time. *)
Definition mem_ok : Memory := mkMemory 0 (fun n => n <=? 2 ^ 47) true.

(** A chunked POST request with the given body stream. *)
Definition req_chunked (src : Reader) : Request :=
  mkRequest "POST" "/cgi/hello" "" "HTTP/1.1"
            {[ "Transfer-Encoding" := ["chunked"] ]}
            (BodyStream src) (-1) ["chunked"] "example.org" "10.0.0.1:5000" false.

(** ** [WindowsCGIHandler.ServeHTTP] (windows_cgi.go) *)

(** [exec.Cmd], the fields the handler fills in; [cmd_Stdin] is [None]
    while [cmd.Stdin] is left nil. *)
Record Cmd : Type := mkCmd {
  cmd_Path : string;
  cmd_Args : list string;
  cmd_Dir : string;
  cmd_Env : list string;
  cmd_Stdin : option ReadCloser
}.

(** The response under construction behind [http.ResponseWriter]: its
    header map, the status code once [WriteHeader] was called, and the
    body bytes written. *)
Record Response : Type := mkResponse {
  resp_Header : http_Header;
  resp_code : option Z;
  resp_body : string
}.

Module response.

(** [rw.WriteHeader(code)] of net/http (on a connection that was not
    hijacked): once the header is written ([wroteHeader]) the call is
    ignored; otherwise [checkWriteHeaderCode]
    panics with [fmt.Sprintf("invalid WriteHeader code %v", code)] on a
    code that has not three digits, and the code becomes the status.
    (A code from 100 to 199 is recorded as the status like any other, as
    [httptest.ResponseRecorder] records it; a writer that sends such a
    code as an interim response and leaves the status open is not what
    [Response] models.) *)
Definition WriteHeader (rw : Response) (code : Z) : outcome Response :=
  match resp_code rw with
  | Some _ => Returned rw
  | None =>
      if (code <? 100) || (999 <? code)
      then Panicked ("invalid WriteHeader code " +:+ strconv.FormatInt code)
      else Returned (mkResponse (resp_Header rw) (Some code) (resp_body rw))
  end.

(** [rw.Write(b)] *)
Definition Write (rw : Response) (b : string) : Response :=
  mkResponse (resp_Header rw) (resp_code rw) (resp_body rw +:+ b).

(** The header map behind [rw.Header()] replaced. *)
Definition with_Header (rw : Response) (header : http_Header) : Response :=
  mkResponse header (resp_code rw) (resp_body rw).

End response.

(** What surrounds the handler at run time: the platform name, the
    handler of net/http/cgi it falls back to, [http.Error], the errors of
    the pipe set-up and of [cmd.Start], and the bytes the started process
    writes to its standard output. *)
Record Runtime : Type := mkRuntime {
  GOOS : string;
  cgi_ServeHTTP : cgi_Handler -> Response -> Request -> Response;
  http_Error : Response -> string -> Z -> Response;
  StdoutPipe_err : option error;
  StderrPipe_err : option error;
  Start_err : option error;
  run : Cmd -> Reader
}.

(** The command the handler builds, with the body as standard input only
    when the request declares a content length other than zero. *)
Definition windowsCmd (h : WindowsCGIHandler) (req : Request)
    (order : list (string * list string)) (Getenv : string -> string) : Cmd :=
  mkCmd (Path (Handler h)) (Path (Handler h) :: Args (Handler h)) (Dir (Handler h))
        (buildEnv h req order Getenv)
        (if ContentLength req =? 0 then None else Some (Body req)).


(** [WindowsCGIHandler.ServeHTTP]. [order] is the order of the range over
    the request headers, [range] gives the order of the range over the
    parsed headers. The result is the response and the command that was
    started, if one was. (The copy of the process's standard error and the
    wait for its exit leave no trace in the response.) *)
Definition WindowsCGIHandler_ServeHTTP (rt : Runtime) (h : WindowsCGIHandler)
    (rw : Response) (req : Request) (order : list (string * list string))
    (range : http_Header -> list (string * list string)) (Getenv : string -> string)
    : outcome Response * option Cmd :=
  if negb (String.eqb (GOOS rt) "windows") then
    (Returned (cgi_ServeHTTP rt (Handler h) rw req), None)
  else
    let cmd := windowsCmd h req order Getenv in
    match StdoutPipe_err rt with
    | Some err => (Returned (http_Error rt rw ("CGI error: " +:+ Error err) 500), None)
    | None =>
    match StderrPipe_err rt with
    | Some err => (Returned (http_Error rt rw ("CGI error: " +:+ Error err) 500), None)
    | None =>
    match Start_err rt with
    | Some err => (Returned (http_Error rt rw ("CGI error: " +:+ Error err) 500), None)
    | None =>
        let stdout := run rt cmd in
        match parseWindowsHeaders stdout with
        | None => (Panicked "", Some cmd) (* never: the parser returns *)
        | Some (ParseError err) =>
            (Returned (http_Error rt rw ("CGI header error: " +:+ Error err) 500), Some cmd)
        | Some (Parsed headers statusCode bodyReader) =>
            let rw := response.with_Header rw (setHeaders (range headers) (resp_Header rw)) in
            let written :=
              if statusCode =? 0 then Returned rw else response.WriteHeader rw statusCode in
            match written with
            | Returned rw => (Returned (response.Write rw (rd_data bodyReader)), Some cmd)
            | Failed err => (Failed err, Some cmd)
            | Panicked msg => (Panicked msg, Some cmd)
            end
        end
    end end end.

(** *** Header blocks as the subprocess writes them *)

(** The three line endings the reader accepts. *)
Inductive terminator : Type :=
  | EndLF
  | EndCRLF
  | EndCRCRLF.

Definition terminator_bytes (t : terminator) : string :=
  match t with
  | EndLF => LFs
  | EndCRLF => crlf
  | EndCRCRLF => String Bytes.CR crlf
  end.

(** Lines written one after the other, each with its own ending, in front
    of [rest]. *)
Fixpoint write_lines (lines : list (string * terminator)) (rest : string) : string :=
  match lines with
  | [] => rest
  | (line, t) :: lines => line +:+ terminator_bytes t +:+ write_lines lines rest
  end.

(** A header line proper: not empty, and free of CR and LF. *)
Definition plain_line (line : string) : Prop :=
  line <> "" /\ Bytes.contains Bytes.CR line = false /\ Bytes.contains Bytes.LF line = false.

(** The part of [s] in front of the first byte [c] (all of [s] without
    one). *)
Definition before (c : ascii) (s : string) : string :=
  match strings.Index s c with
  | Some i => Bytes.take i s
  | None => s
  end.

(** A runtime on Windows whose process writes [out], and the identity
    range order of the examples. *)
Definition rt_windows (out : string) : Runtime :=
  mkRuntime "windows" (fun _ rw _ => rw)
            (fun rw msg code => mkResponse ∅ (Some code) (msg +:+ LFs))
            None None None (fun _ => mkReader out EOF).
Definition rw_fresh : Response := mkResponse ∅ None "".

(** A handler whose [Env] holds the five entries that [ServeHTTP] of
    cgi.go puts into the [Env] of its handler, PATH_INFO and SCRIPT_NAME
    among them. *)
Definition h_script : WindowsCGIHandler :=
  {| Handler := mkHandler "/bin/hello" "/" ""
                  [ "PATH_INFO=/hello"; "SCRIPT_FILENAME=/bin/hello"; "SCRIPT_NAME=/cgi";
                    "SCRIPT_EXEC=/bin/hello "; "REMOTE_USER=" ]
                  [] [] |}.


(** What a line keeps true of the mapping and the status: the status is
    between -99 and 999, the keys are canonical, no key is without
    value. *)
Definition well_formed_result (headers : http_Header) (statusCode : Z) : Prop :=
  -99 <= statusCode <= 999
  /\ (forall k, is_Some (headers !! k) -> textproto.CanonicalMIMEHeaderKey k = k)
  /\ (forall k, headers !! k <> Some []).

(** * Properties *)

(** Closed decidable goals (membership, [NoDup]) are settled by
    evaluation. *)
Ltac by_evaluation := apply (bool_decide_unpack _); vm_compute; exact I.

(** ** Bytes *)

Section bytes_facts.

Lemma len_nonneg (s : string) : 0 <= Bytes.len s.
Proof. unfold Bytes.len. lia. Qed.

Lemma len_zero_iff (s : string) : Bytes.len s = 0 <-> s = "".
Proof.
  unfold Bytes.len. destruct s; simpl; split; intros; try done; lia.
Qed.

Lemma app_cons (b : ascii) (s t : string) : String b s +:+ t = String b (s +:+ t).
Proof. reflexivity. Qed.

Lemma length_app (s t : string) :
  String.length (s +:+ t) = (String.length s + String.length t)%nat.
Proof. induction s as [|b s IH]; [done | rewrite app_cons; simpl; by rewrite IH]. Qed.

Lemma app_empty_r (s : string) : s +:+ "" = s.
Proof. induction s as [|b s IH]; [done | rewrite app_cons; simpl; by rewrite IH]. Qed.

Lemma app_assoc_s (s t u : string) : (s +:+ t) +:+ u = s +:+ t +:+ u.
Proof. induction s as [|b s IH]; [done | rewrite !app_cons; by rewrite IH]. Qed.

Lemma push_app (line : string) (b : ascii) (rest : string) :
  Bytes.push line b +:+ rest = line +:+ String b rest.
Proof. unfold Bytes.push. by rewrite app_assoc_s. Qed.

Lemma push_not_empty (line : string) (b : ascii) : Bytes.push line b <> "".
Proof. destruct line; discriminate. Qed.

Lemma length_take (n : nat) (s : string) :
  String.length (Bytes.take n s) = Nat.min n (String.length s).
Proof.
  revert s; induction n as [|n IH]; intros [|b s]; simpl; try done.
  by rewrite IH.
Qed.

Lemma length_drop (n : nat) (s : string) :
  String.length (Bytes.drop n s) = (String.length s - n)%nat.
Proof.
  revert s; induction n as [|n IH]; intros [|b s]; simpl; try done.
Qed.

Lemma take_drop (n : nat) (s : string) : Bytes.take n s +:+ Bytes.drop n s = s.
Proof.
  revert s; induction n as [|n IH]; intros [|b s]; simpl; try done.
  by rewrite app_cons, IH.
Qed.

Lemma take_all (n : nat) (s : string) :
  (String.length s <= n)%nat -> Bytes.take n s = s.
Proof.
  revert s; induction n as [|n IH]; intros [|b s]; simpl; intros; try done; try lia.
  rewrite IH; [done | lia].
Qed.

Lemma drop_all (n : nat) (s : string) :
  (String.length s <= n)%nat -> Bytes.drop n s = "".
Proof.
  revert s; induction n as [|n IH]; intros [|b s]; simpl; intros; try done; try lia.
  apply IH; lia.
Qed.

Lemma contains_app (c : ascii) (s t : string) :
  Bytes.contains c (s +:+ t) = Bytes.contains c s || Bytes.contains c t.
Proof.
  induction s as [|b s IH]; [done |]. rewrite app_cons; simpl.
  destruct (Ascii.eqb b c); [done | apply IH].
Qed.

Lemma Index_None_contains (s : string) (c : ascii) :
  strings.Index s c = None <-> Bytes.contains c s = false.
Proof.
  induction s as [|b s IH]; simpl; [done |].
  destruct (Ascii.eqb b c); [split; discriminate |].
  rewrite <- IH. destruct (strings.Index s c); simpl; split; congruence.
Qed.

End bytes_facts.

(** ** Line reader *)

Section line_reader.

Lemma ReadByte_shrinks (r : Reader) :
  rd_end (snd (bufio.ReadByte r)) = rd_end r
  /\ (String.length (rd_data (snd (bufio.ReadByte r))) <= String.length (rd_data r))%nat.
Proof.
  unfold bufio.ReadByte. destruct r as [[|b rest] e]; simpl; split; try done; lia.
Qed.

(** A line read without error leaves the reader on its own source, and
    has used up at least one byte when the line buffer was empty at the
    start. *)
Lemma readWindowsLine_loop_progress (e : error) (data line l : string) (r' : Reader) :
  readWindowsLine_loop e data line = ((l, None), r') ->
  rd_end r' = e
  /\ (String.length (rd_data r') <= String.length data)%nat
  /\ (line = "" -> (String.length (rd_data r') < String.length data)%nat).
Proof.
  revert line. induction data as [|b rest IH]; intros line; simpl.
  - destruct (decide (e = EOF)); [|discriminate].
    destruct (0 <? Bytes.len line) eqn:Hlen; [|discriminate].
    intros [= <- <-]; simpl. repeat split; try lia.
    intros ->. discriminate.
  - assert (Hrec : readWindowsLine_loop e rest (Bytes.push line b) = (l, None, r') ->
                   rd_end r' = e
                   /\ (String.length (rd_data r') <= S (String.length rest))%nat
                   /\ (line = "" -> (String.length (rd_data r') < S (String.length rest))%nat)).
    { intros Hr. destruct (IH _ Hr) as (? & ? & _). repeat split; try done; lia. }
    destruct (Ascii.eqb b Bytes.LF).
    { intros [= <- <-]; simpl. repeat split; lia. }
    destruct (Ascii.eqb b Bytes.CR); [|exact Hrec].
    destruct (bufio.Peek 2 (mkReader rest e)) as [peek err].
    set (r0 := mkReader rest e).
    pose proof (ReadByte_shrinks r0) as [He1 Hl1].
    pose proof (ReadByte_shrinks (snd (bufio.ReadByte r0))) as [He2 Hl2].
    simpl in He1, Hl1.
    repeat case_match; try exact Hrec;
      intros [= <- <-]; repeat split; try congruence; try lia; intros; lia.
Qed.

Lemma readWindowsLine_progress (r r' : Reader) (l : string) :
  readWindowsLine r = ((l, None), r') ->
  rd_end r' = rd_end r
  /\ (String.length (rd_data r') < String.length (rd_data r))%nat.
Proof.
  intros Hr. apply readWindowsLine_loop_progress in Hr as (? & _ & Hlt).
  split; [done | by apply Hlt].
Qed.

(** An error of [readWindowsLine] is the source's, and comes with the
    empty string. *)
Lemma readWindowsLine_loop_error (e e' : error) (data line l : string) (r' : Reader) :
  readWindowsLine_loop e data line = ((l, Some e'), r') -> e' = e /\ l = "".
Proof.
  revert line. induction data as [|b rest IH]; intros line; simpl.
  - repeat case_match; intros [= <- <- <-]; done.
  - destruct (bufio.Peek 2 (mkReader rest e)) as [peek err].
    repeat case_match; try apply IH; discriminate.
Qed.

End line_reader.

(** ** Header parser: the loop *)

Section parser_loop.

(** More turns than the reader has bytes are never used. *)
Lemma parse_fuel_enough (fuel fuel' : nat) (buf : Reader)
    (headers : http_Header) (statusCode : Z) :
  (String.length (rd_data buf) < fuel)%nat ->
  (String.length (rd_data buf) < fuel')%nat ->
  parseWindowsHeaders_loop fuel buf headers statusCode
  = parseWindowsHeaders_loop fuel' buf headers statusCode.
Proof.
  revert fuel' buf headers statusCode.
  induction fuel as [|fuel IH]; intros fuel' buf headers statusCode Hf Hf'; [lia |].
  destruct fuel' as [|fuel']; [lia |]. simpl.
  destruct (readWindowsLine buf) as [[line [e|]] buf'] eqn:Hread; [done |].
  apply readWindowsLine_progress in Hread as [_ Hlt].
  destruct (Bytes.len line =? 0); [done |].
  destruct (parseHeaderLine line headers statusCode) as [headers' statusCode'].
  apply IH; lia.
Qed.

(** The loop, one turn unfolded. *)
Lemma parseWindowsHeaders_from_unfold (buf : Reader) (headers : http_Header)
    (statusCode : Z) :
  parseWindowsHeaders_from buf headers statusCode
  = match readWindowsLine buf with
    | ((_, Some e), _) =>
        Some (ParseError (ErrOther ("error reading CGI headers: " +:+ Error e)))
    | ((line, None), buf') =>
        if Bytes.len line =? 0 then Some (Parsed headers statusCode buf')
        else
          let '(headers', statusCode') := parseHeaderLine line headers statusCode in
          parseWindowsHeaders_from buf' headers' statusCode'
    end.
Proof.
  unfold parseWindowsHeaders_from at 1. simpl.
  destruct (readWindowsLine buf) as [[line [e|]] buf'] eqn:Hread; [done |].
  apply readWindowsLine_progress in Hread as [_ Hlt].
  destruct (Bytes.len line =? 0); [done |].
  destruct (parseHeaderLine line headers statusCode) as [headers' statusCode'].
  apply parse_fuel_enough; lia.
Qed.

(** [parseWindowsHeaders] always returns: with headers, or with an
    error. *)
Lemma parseWindowsHeaders_from_total (buf : Reader) (headers : http_Header)
    (statusCode : Z) :
  is_Some (parseWindowsHeaders_from buf headers statusCode).
Proof.
  remember (String.length (rd_data buf)) as n eqn:Hn.
  revert buf headers statusCode Hn.
  induction (lt_wf n) as [n _ IH]; intros buf headers statusCode ->.
  rewrite parseWindowsHeaders_from_unfold.
  destruct (readWindowsLine buf) as [[line [e|]] buf'] eqn:Hread; [by eexists |].
  apply readWindowsLine_progress in Hread as [_ Hlt].
  destruct (Bytes.len line =? 0); [by eexists |].
  destruct (parseHeaderLine line headers statusCode) as [headers' statusCode'].
  eapply IH; [exact Hlt | done].
Qed.

(** An invariant of the headers that every line keeps holds of the
    headers returned. *)
Lemma parseWindowsHeaders_from_invariant (P : http_Header -> Prop) :
  (forall line headers statusCode,
      P headers -> P (parseHeaderLine line headers statusCode).1) ->
  forall buf headers statusCode headers' statusCode' body,
    P headers ->
    parseWindowsHeaders_from buf headers statusCode
    = Some (Parsed headers' statusCode' body) ->
    P headers'.
Proof.
  intros Hstep buf.
  remember (String.length (rd_data buf)) as n eqn:Hn. revert buf Hn.
  induction (lt_wf n) as [n _ IH]; intros buf -> headers statusCode headers' statusCode' body HP.
  rewrite parseWindowsHeaders_from_unfold.
  destruct (readWindowsLine buf) as [[line [e|]] buf'] eqn:Hread; [done |].
  apply readWindowsLine_progress in Hread as [_ Hlt].
  destruct (Bytes.len line =? 0); [by intros [= <- <- <-] |].
  pose proof (Hstep line headers statusCode HP) as HP'.
  destruct (parseHeaderLine line headers statusCode) as [headers1 statusCode1].
  eapply IH; [exact Hlt | done | exact HP'].
Qed.

End parser_loop.

(** ** Line reader: end of stream, and CR LF *)

Section line_reader_claims.

Lemma contains_cons_false (c b : ascii) (s : string) :
  Bytes.contains c (String b s) = false -> b <> c /\ Bytes.contains c s = false.
Proof.
  simpl. destruct (Ascii.eqb_spec b c); [discriminate | done].
Qed.





(** CR LF with at least one byte after it ends the line: both bytes are
    consumed and the next read starts behind the LF. *)
Lemma readWindowsLine_crlf_inside (e : error) (pre : string) (c : ascii) (rest : string) :
  Bytes.contains Bytes.LF pre = false ->
  Bytes.contains Bytes.CR pre = false ->
  readWindowsLine (mkReader (pre +:+ crlf +:+ String c rest) e)
  = ((pre, None), mkReader (String c rest) e).
Proof.
  intros Hlf Hcr. unfold readWindowsLine; simpl.
  assert (Hgen : forall line,
             readWindowsLine_loop e (pre +:+ crlf +:+ String c rest) line
             = ((line +:+ pre, None), mkReader (String c rest) e)).
  { induction pre as [|b pre IH]; intros line.
    - rewrite app_empty_r. reflexivity.
    - apply contains_cons_false in Hlf as [Hb1 Hlf].
      apply contains_cons_false in Hcr as [Hb2 Hcr].
      rewrite app_cons. simpl.
      destruct (Ascii.eqb_spec b Bytes.LF); [done |].
      destruct (Ascii.eqb_spec b Bytes.CR); [done |].
      rewrite (IH Hlf Hcr), push_app. done. }
  apply Hgen.
Qed.

(** When CR LF are the last two bytes of the stream, the two-byte
    look-ahead fails, the CR is taken as data, and the LF alone ends the
    line. *)
Lemma readWindowsLine_crlf_last (e : error) (pre : string) :
  Bytes.contains Bytes.LF pre = false ->
  Bytes.contains Bytes.CR pre = false ->
  readWindowsLine (mkReader (pre +:+ crlf) e)
  = ((pre +:+ String Bytes.CR "", None), mkReader "" e).
Proof.
  intros Hlf Hcr. unfold readWindowsLine; simpl.
  assert (Hgen : forall line,
             readWindowsLine_loop e (pre +:+ crlf) line
             = ((line +:+ pre +:+ String Bytes.CR "", None), mkReader "" e)).
  { induction pre as [|b pre IH]; intros line.
    - reflexivity.
    - apply contains_cons_false in Hlf as [Hb1 Hlf].
      apply contains_cons_false in Hcr as [Hb2 Hcr].
      rewrite !app_cons. simpl.
      destruct (Ascii.eqb_spec b Bytes.LF); [done |].
      destruct (Ascii.eqb_spec b Bytes.CR); [done |].
      rewrite (IH Hlf Hcr), push_app. done. }
  apply Hgen.
Qed.

(** C2, at the end of the stream. The stream [a CR LF] ends with CR LF;
    the line returned is [a CR], not [a]: the CR stays in the line. With
    one more byte behind the LF the same line comes out as [a]. *)
Theorem readWindowsLine_crlf_at_end_keeps_CR :
  readWindowsLine (mkReader ("a" +:+ crlf) EOF)
  = (("a" +:+ String Bytes.CR "", None), mkReader "" EOF)
  /\ readWindowsLine (mkReader ("a" +:+ crlf +:+ "b") EOF)
     = (("a", None), mkReader "b" EOF).
Proof. split; reflexivity. Qed.

End line_reader_claims.

(** ** Header parser: lines *)

Section header_lines.

Lemma lower_upper_byte (c : ascii) :
  strings.lower_byte (strings.upper_byte c) = strings.lower_byte c.
Proof. destruct c as [[] [] [] [] [] [] [] []]; reflexivity. Qed.

Lemma lower_lower_byte (c : ascii) :
  strings.lower_byte (strings.lower_byte c) = strings.lower_byte c.
Proof. destruct c as [[] [] [] [] [] [] [] []]; reflexivity. Qed.

(** Canonical form changes the case of letters only. *)
Lemma ToLower_canonical (upper : bool) (s : string) :
  strings.ToLower (textproto.canonical upper s) = strings.ToLower s.
Proof.
  revert upper. induction s as [|c s IH]; intros upper; [done |].
  unfold strings.ToLower in *. simpl. rewrite IH. f_equal.
  unfold textproto.canonical_byte.
  repeat case_match; auto using lower_upper_byte, lower_lower_byte.
Qed.

Lemma ToLower_CanonicalMIMEHeaderKey (s : string) :
  strings.ToLower (textproto.CanonicalMIMEHeaderKey s) = strings.ToLower s.
Proof.
  unfold textproto.CanonicalMIMEHeaderKey.
  destruct (textproto.all_valid s); [apply ToLower_canonical | done].
Qed.

Lemma line_key_value_not_empty (line : string) (kv : string * string) :
  line_key_value line = Some kv -> line <> "".
Proof. destruct line; [discriminate | done]. Qed.

Lemma line_key_value_None (line : string) :
  Bytes.contains ":" line = false -> line_key_value line = None.
Proof.
  intros Hno. apply Index_None_contains in Hno.
  unfold line_key_value, strings.SplitN2. by rewrite Hno.
Qed.

(** The loop body in terms of the key and value of the line. *)
Lemma parseHeaderLine_key_value (line : string) (headers : http_Header) (statusCode : Z) :
  parseHeaderLine line headers statusCode
  = match line_key_value line with
    | None => (headers, statusCode)
    | Some (key, value) =>
        if String.eqb (strings.ToLower key) "status" then
          (headers,
           if 3 <=? Bytes.len value then
             default statusCode (strconv.Atoi (Bytes.take 3 value))
           else statusCode)
        else (Header.Add headers key value, statusCode)
    end.
Proof.
  unfold parseHeaderLine, line_key_value, strings.SplitN2.
  destruct (strings.Index line ":"); [|done].
  destruct (String.eqb _ "status"); [|done].
  destruct (3 <=? _); [|done].
  by destruct (strconv.Atoi _).
Qed.

(** One line read from [buf]: the loop goes on behind it with the state
    the line leaves. *)
Lemma parseWindowsHeaders_from_line (buf buf' : Reader) (line : string)
    (headers : http_Header) (statusCode : Z) :
  readWindowsLine buf = ((line, None), buf') ->
  line <> "" ->
  parseWindowsHeaders_from buf headers statusCode
  = parseWindowsHeaders_from buf'
      (parseHeaderLine line headers statusCode).1
      (parseHeaderLine line headers statusCode).2.
Proof.
  intros Hread Hne. rewrite parseWindowsHeaders_from_unfold, Hread.
  destruct (Bytes.len line =? 0) eqn:Hlen.
  - apply Z.eqb_eq, len_zero_iff in Hlen. done.
  - by destruct (parseHeaderLine line headers statusCode).
Qed.

End header_lines.

(** ** Header parser: status lines and malformed lines *)

Section status_and_malformed.

(** C5. The status code starts at 200. A line whose key lower-cases to
    "status" sets it to the integer its first three bytes spell, when
    the value has at least three bytes and they parse; otherwise the
    status stays what it was. In both cases the headers are untouched
    and parsing goes on with the next line, without error.
    "Status: 404 Not Found" gives 404, "Status: abc" leaves 200. *)
Theorem parseWindowsHeaders_status (buf buf' : Reader) (line key value : string)
    (headers : http_Header) (statusCode : Z) :
  readWindowsLine buf = ((line, None), buf') ->
  line_key_value line = Some (key, value) ->
  strings.ToLower key = "status" ->
  parseWindowsHeaders buf = parseWindowsHeaders_from buf ∅ 200
  /\ (forall code,
         3 <= Bytes.len value ->
         strconv.Atoi (Bytes.take 3 value) = Some code ->
         parseWindowsHeaders_from buf headers statusCode
         = parseWindowsHeaders_from buf' headers code)
  /\ (Bytes.len value < 3 \/ strconv.Atoi (Bytes.take 3 value) = None ->
      parseWindowsHeaders_from buf headers statusCode
      = parseWindowsHeaders_from buf' headers statusCode)
  /\ parseWindowsHeaders (mkReader ("Status: 404 Not Found" +:+ LFs +:+ LFs +:+ "body") EOF)
     = Some (Parsed ∅ 404 (mkReader "body" EOF))
  /\ parseWindowsHeaders (mkReader ("Status: abc" +:+ LFs +:+ LFs +:+ "body") EOF)
     = Some (Parsed ∅ 200 (mkReader "body" EOF)).
Proof.
  intros Hread Hkv Hkey.
  pose proof (line_key_value_not_empty _ _ Hkv) as Hne.
  pose proof (parseWindowsHeaders_from_line _ _ _ headers statusCode Hread Hne) as Hstep.
  rewrite parseHeaderLine_key_value, Hkv, Hkey, String.eqb_refl in Hstep.
  cbn [fst snd] in Hstep.
  split; [reflexivity |]. split; [|split; [|split; reflexivity]].
  - intros code Hlen Hcode. rewrite Hstep, Hcode.
    destruct (3 <=? Bytes.len value) eqn:Hle; [done |].
    apply Z.leb_gt in Hle. lia.
  - intros [Hlen | Hnone]; rewrite Hstep.
    + destruct (3 <=? Bytes.len value) eqn:Hle; [|done].
      apply Z.leb_le in Hle. lia.
    + rewrite Hnone. by destruct (3 <=? Bytes.len value).
Qed.

Lemma parseWindowsHeaders_status_witness :
  readWindowsLine (mkReader block_status EOF)
  = (("Status: 404 Not Found", None), mkReader ("X: y" +:+ LFs +:+ LFs) EOF)
  /\ line_key_value "Status: 404 Not Found" = Some ("Status", "404 Not Found")
  /\ strings.ToLower "Status" = "status"
  /\ parseWindowsHeaders_from (mkReader block_status EOF) ∅ 200
     = parseWindowsHeaders_from (mkReader ("X: y" +:+ LFs +:+ LFs) EOF) ∅ 404.
Proof.
  split; [reflexivity |]. split; [reflexivity |]. split; [reflexivity |].
  apply (parseWindowsHeaders_status (mkReader block_status EOF)
           (mkReader ("X: y" +:+ LFs +:+ LFs) EOF) "Status: 404 Not Found" "Status"
           "404 Not Found" ∅ 200 eq_refl eq_refl eq_refl);
    [vm_compute; discriminate | reflexivity].
Defined.

(** C6. A line of the header block without colon is skipped: it changes
    neither the headers nor the status, raises no error, and parsing
    goes on with the line after it. *)
Theorem line_without_colon_skipped (buf buf' : Reader) (line : string)
    (headers : http_Header) (statusCode : Z) :
  readWindowsLine buf = ((line, None), buf') ->
  line <> "" ->
  Bytes.contains ":" line = false ->
  parseHeaderLine line headers statusCode = (headers, statusCode)
  /\ parseWindowsHeaders_from buf headers statusCode
     = parseWindowsHeaders_from buf' headers statusCode
  /\ is_Some (parseWindowsHeaders_from buf headers statusCode).
Proof.
  intros Hread Hne Hno.
  assert (Hline : parseHeaderLine line headers statusCode = (headers, statusCode)).
  { by rewrite parseHeaderLine_key_value, line_key_value_None. }
  split; [done |]. split; [|apply parseWindowsHeaders_from_total].
  by rewrite (parseWindowsHeaders_from_line _ _ _ _ _ Hread Hne), Hline.
Qed.

Lemma line_without_colon_skipped_witness :
  readWindowsLine (mkReader block_nocolon EOF)
  = (("no separator here", None), mkReader ("X: y" +:+ LFs +:+ LFs +:+ "body") EOF)
  /\ "no separator here" <> ""
  /\ Bytes.contains ":" "no separator here" = false
  /\ parseWindowsHeaders_from (mkReader block_nocolon EOF) ∅ 200
     = parseWindowsHeaders_from (mkReader ("X: y" +:+ LFs +:+ LFs +:+ "body") EOF) ∅ 200
  /\ parseWindowsHeaders (mkReader block_nocolon EOF)
     = Some (Parsed {[ "X" := ["y"] ]} 200 (mkReader "body" EOF)).
Proof.
  split; [reflexivity |]. split; [discriminate |]. split; [reflexivity |].
  split; [|vm_compute; reflexivity].
  apply (line_without_colon_skipped (mkReader block_nocolon EOF)
           (mkReader ("X: y" +:+ LFs +:+ LFs +:+ "body") EOF)
           "no separator here" ∅ 200 eq_refl);
    [discriminate | reflexivity].
Defined.

(** A line never files a value under a key that lower-cases to
    "status". *)
Lemma parseHeaderLine_no_status (line : string) (headers : http_Header) (statusCode : Z) :
  (forall k, strings.ToLower k = "status" -> headers !! k = None) ->
  forall k, strings.ToLower k = "status" ->
            (parseHeaderLine line headers statusCode).1 !! k = None.
Proof.
  intros Hinv k Hk. rewrite parseHeaderLine_key_value.
  destruct (line_key_value line) as [[key value]|]; [|by apply Hinv].
  destruct (String.eqb_spec (strings.ToLower key) "status") as [|Hne]; [by apply Hinv |].
  simpl. unfold Header.Add. rewrite lookup_insert_ne; [by apply Hinv |].
  intros <-. by rewrite ToLower_CanonicalMIMEHeaderKey in Hk.
Qed.

(** C10. A line whose key lower-cases to "status" leaves the header
    mapping as it is, whatever its value; and the mapping that
    [parseWindowsHeaders] returns has no entry under "Status", nor under
    any other spelling of that key. "Status: abc" is such a line. *)
Theorem status_is_never_a_header (reader body : Reader) (headers : http_Header)
    (statusCode : Z) :
  parseWindowsHeaders reader = Some (Parsed headers statusCode body) ->
  headers !! "Status" = None
  /\ (forall key, strings.ToLower key = "status" -> headers !! key = None)
  /\ (forall line key value (h : http_Header) st,
         line_key_value line = Some (key, value) ->
         strings.ToLower key = "status" ->
         (parseHeaderLine line h st).1 = h)
  /\ parseWindowsHeaders (mkReader ("Status: abc" +:+ LFs +:+ LFs) EOF)
     = Some (Parsed ∅ 200 (mkReader "" EOF)).
Proof.
  intros Hparse.
  assert (Hall : forall key, strings.ToLower key = "status" -> headers !! key = None).
  { eapply (parseWindowsHeaders_from_invariant
              (fun h => forall k, strings.ToLower k = "status" -> h !! k = None));
      [| |exact Hparse].
    - intros line h st Hinv. by apply parseHeaderLine_no_status.
    - intros k _. apply lookup_empty. }
  split; [by apply Hall |]. split; [exact Hall |]. split; [|reflexivity].
  intros line key value h st Hkv Hkey.
  by rewrite parseHeaderLine_key_value, Hkv, Hkey, String.eqb_refl.
Qed.

Lemma status_is_never_a_header_witness :
  parseWindowsHeaders (mkReader block_status_twice EOF)
  = Some (Parsed {[ "X" := ["y"] ]} 200 (mkReader "" EOF))
  /\ ({[ "X" := ["y"] ]} : http_Header) !! "Status" = None.
Proof.
  assert (H : parseWindowsHeaders (mkReader block_status_twice EOF)
              = Some (Parsed {[ "X" := ["y"] ]} 200 (mkReader "" EOF)))
    by (vm_compute; reflexivity).
  split; [exact H |].
  exact (proj1 (status_is_never_a_header (mkReader block_status_twice EOF)
                  (mkReader "" EOF) {[ "X" := ["y"] ]} 200 H)).
Defined.

End status_and_malformed.

(** ** Header parser: the values of a key *)

Section header_values.

Lemma canonical_byte_valid (upper : bool) (c : ascii) :
  textproto.validHeaderFieldByte (textproto.canonical_byte upper c)
  = textproto.validHeaderFieldByte c.
Proof. destruct upper, c as [[] [] [] [] [] [] [] []]; reflexivity. Qed.

Lemma canonical_byte_idem (upper : bool) (c : ascii) :
  textproto.canonical_byte upper (textproto.canonical_byte upper c)
  = textproto.canonical_byte upper c.
Proof. destruct upper, c as [[] [] [] [] [] [] [] []]; reflexivity. Qed.

Lemma canonical_all_valid (upper : bool) (s : string) :
  textproto.all_valid (textproto.canonical upper s) = textproto.all_valid s.
Proof.
  revert upper. induction s as [|c s IH]; intros upper; [done |].
  simpl. by rewrite canonical_byte_valid, IH.
Qed.

Lemma canonical_idem (upper : bool) (s : string) :
  textproto.canonical upper (textproto.canonical upper s) = textproto.canonical upper s.
Proof.
  revert upper. induction s as [|c s IH]; intros upper; [done |].
  simpl. by rewrite canonical_byte_idem, IH.
Qed.

(** A canonical key is its own canonical form. *)
Lemma CanonicalMIMEHeaderKey_idem (s : string) :
  textproto.CanonicalMIMEHeaderKey (textproto.CanonicalMIMEHeaderKey s)
  = textproto.CanonicalMIMEHeaderKey s.
Proof.
  unfold textproto.CanonicalMIMEHeaderKey.
  destruct (textproto.all_valid s) eqn:Hv.
  - by rewrite canonical_all_valid, Hv, canonical_idem.
  - by rewrite Hv.
Qed.

Lemma Header_Add_values (h : http_Header) (key value k : string) :
  Header.values (Header.Add h key value) k
  = if decide (textproto.CanonicalMIMEHeaderKey key = k)
    then (Header.values h k ++ [value])%list
    else Header.values h k.
Proof.
  unfold Header.values, Header.Add.
  destruct (decide (textproto.CanonicalMIMEHeaderKey key = k)) as [->|Hne].
  - by rewrite lookup_insert_eq.
  - by rewrite lookup_insert_ne.
Qed.

(** What one line adds under the key [k]. *)
Lemma parseHeaderLine_values (line : string) (headers : http_Header) (statusCode : Z)
    (k : string) :
  Header.values (parseHeaderLine line headers statusCode).1 k
  = (Header.values headers k ++ values_of k [line])%list.
Proof.
  rewrite parseHeaderLine_key_value. unfold values_of, line_entry. simpl.
  destruct (line_key_value line) as [[key value]|]; simpl; [|by rewrite app_nil_r].
  destruct (String.eqb (strings.ToLower key) "status"); simpl; [by rewrite app_nil_r |].
  rewrite Header_Add_values.
  destruct (decide (textproto.CanonicalMIMEHeaderKey key = k)); simpl;
    [done | by rewrite app_nil_r].
Qed.

Lemma values_of_cons (k line : string) (lines : list string) :
  values_of k (line :: lines) = (values_of k [line] ++ values_of k lines)%list.
Proof. unfold values_of. simpl. by destruct (line_entry line) as [[]|]; try case_decide. Qed.

Lemma parseHeaderLines_values (lines : list string) (headers : http_Header)
    (statusCode : Z) (k : string) :
  Header.values (parseHeaderLines lines headers statusCode).1 k
  = (Header.values headers k ++ values_of k lines)%list.
Proof.
  unfold parseHeaderLines.
  revert headers statusCode. induction lines as [|line lines IH]; intros headers statusCode.
  - simpl. by rewrite app_nil_r.
  - rewrite (values_of_cons k line lines). cbn [foldl fst snd].
    destruct (parseHeaderLine line headers statusCode) as [h1 st1] eqn:Hline.
    rewrite IH, app_assoc. f_equal.
    pose proof (parseHeaderLine_values line headers statusCode k) as Hv.
    by rewrite Hline in Hv.
Qed.

(** The keys of the mapping are canonical. *)
Lemma parseHeaderLines_canonical (lines : list string) (headers : http_Header)
    (statusCode : Z) :
  (forall k, is_Some (headers !! k) -> textproto.CanonicalMIMEHeaderKey k = k) ->
  forall k, is_Some ((parseHeaderLines lines headers statusCode).1 !! k) ->
            textproto.CanonicalMIMEHeaderKey k = k.
Proof.
  unfold parseHeaderLines.
  revert headers statusCode. induction lines as [|line lines IH];
    intros headers statusCode Hcan; [done |].
  simpl. destruct (parseHeaderLine line headers statusCode) as [h1 st1] eqn:Hline.
  apply IH. intros k Hk.
  rewrite parseHeaderLine_key_value in Hline.
  destruct (line_key_value line) as [[key value]|]; [|injection Hline as <- <-; auto].
  destruct (String.eqb (strings.ToLower key) "status"); injection Hline as <- <-; auto.
  unfold Header.Add in Hk.
  destruct (decide (textproto.CanonicalMIMEHeaderKey key = k)) as [<-|Hne].
  - apply CanonicalMIMEHeaderKey_idem.
  - rewrite lookup_insert_ne in Hk by done. auto.
Qed.

(** A block is parsed to what its lines, taken in turn, make of the
    starting state, and the reader is left at the body. *)
Lemma parseWindowsHeaders_from_block (buf body : Reader) (lines : list string)
    (headers : http_Header) (statusCode : Z) :
  block_lines buf lines body ->
  parseWindowsHeaders_from buf headers statusCode
  = Some (Parsed (parseHeaderLines lines headers statusCode).1
                 (parseHeaderLines lines headers statusCode).2 body).
Proof.
  intros Hblock. revert headers statusCode.
  induction Hblock as [buf body Hread | buf buf' body line lines Hread Hne _ IH];
    intros headers statusCode.
  - rewrite parseWindowsHeaders_from_unfold, Hread. done.
  - rewrite (parseWindowsHeaders_from_line _ _ _ _ _ Hread Hne), IH.
    unfold parseHeaderLines. simpl.
    by destruct (parseHeaderLine line headers statusCode).
Qed.

Lemma foldl_Add_values (key : string) (values : list string) (rw : http_Header)
    (k : string) :
  textproto.CanonicalMIMEHeaderKey key = key ->
  Header.values (foldl (fun rw value => Header.Add rw key value) rw values) k
  = if decide (key = k) then (Header.values rw k ++ values)%list
    else Header.values rw k.
Proof.
  intros Hcan. revert rw. induction values as [|v values IH]; intros rw; simpl.
  - case_decide; [by rewrite app_nil_r | done].
  - rewrite IH, Header_Add_values, Hcan.
    case_decide; [by rewrite <- app_assoc | done].
Qed.

(** Adding the entries of a map to the response, in whatever order: each
    key receives the values the map holds for it, in their order. *)
Lemma setHeaders_values (headers : http_Header) (order : list (string * list string))
    (rw : http_Header) (k : string) :
  map_range headers order ->
  (forall k, is_Some (headers !! k) -> textproto.CanonicalMIMEHeaderKey k = k) ->
  Header.values (setHeaders order rw) k
  = (Header.values rw k ++ Header.values headers k)%list.
Proof.
  unfold map_range. intros Hperm Hcan.
  assert (Hnodup : NoDup order.*1).
  { rewrite Hperm. apply NoDup_fst_map_to_list. }
  assert (Hmap : headers = list_to_map order).
  { rewrite <- (list_to_map_to_list headers). symmetry.
    by apply list_to_map_proper. }
  assert (Hcan' : forall key vs, (key, vs) ∈ order ->
                                 textproto.CanonicalMIMEHeaderKey key = key).
  { intros key vs Hin. apply Hcan. exists vs.
    apply elem_of_map_to_list. by rewrite <- Hperm. }
  rewrite Hmap. clear Hmap Hperm Hcan. unfold setHeaders, Header.values.
  revert rw. induction order as [|[key vs] order IH]; intros rw.
  - simpl. by rewrite lookup_empty, app_nil_r.
  - simpl in *. apply NoDup_cons in Hnodup as [Hnotin Hnodup].
    rewrite IH; [|done |intros key' vs' Hin; eapply Hcan'; by right].
    pose proof (foldl_Add_values key vs rw k) as Hadd.
    unfold Header.values in Hadd. rewrite Hadd by (eapply Hcan'; left).
    destruct (decide (key = k)) as [<-|Hne].
    + rewrite lookup_insert_eq. simpl.
      by rewrite (not_elem_of_list_to_map_1 _ _ Hnotin), app_nil_r.
    + by rewrite lookup_insert_ne.
Qed.

End header_values.

Section header_order.

(** C4, as the code has it. For every header block, each key of the
    parsed mapping holds exactly the values that the lines give to it,
    in the order of the lines; and when the mapping is applied to the
    response, each key of the response receives these values, in that
    order, behind the values it had. (Nothing is said about the order
    among distinct keys: the mapping has none.) *)
Theorem header_values_preserved (buf body : Reader) (lines : list string) :
  block_lines buf lines body ->
  exists headers statusCode,
    parseWindowsHeaders buf = Some (Parsed headers statusCode body)
    /\ (forall k, Header.values headers k = values_of k lines)
    /\ (forall order rw k,
           map_range headers order ->
           Header.values (setHeaders order rw) k
           = (Header.values rw k ++ values_of k lines)%list).
Proof.
  intros Hblock.
  exists (parseHeaderLines lines ∅ 200).1, (parseHeaderLines lines ∅ 200).2.
  assert (Hvalues : forall k, Header.values (parseHeaderLines lines ∅ 200).1 k
                              = values_of k lines).
  { intros k. by rewrite parseHeaderLines_values. }
  split; [by apply parseWindowsHeaders_from_block |]. split; [exact Hvalues |].
  intros order rw k Hrange.
  rewrite (setHeaders_values _ _ _ _ Hrange), Hvalues; [done |].
  apply parseHeaderLines_canonical. intros k' [v Hv]. by rewrite lookup_empty in Hv.
Qed.

Lemma block_AABA_lines :
  block_lines (mkReader block_AABA EOF)
              ["Set-Cookie: a=1"; "X-B: 2"; "set-cookie: c=3"]
              (mkReader "body" EOF).
Proof.
  eapply block_line; [reflexivity | discriminate |].
  eapply block_line; [reflexivity | discriminate |].
  eapply block_line; [reflexivity | discriminate |].
  apply block_end. reflexivity.
Defined.

Lemma header_values_preserved_witness :
  block_lines (mkReader block_AABA EOF)
              ["Set-Cookie: a=1"; "X-B: 2"; "set-cookie: c=3"]
              (mkReader "body" EOF)
  /\ exists headers statusCode,
      parseWindowsHeaders (mkReader block_AABA EOF)
      = Some (Parsed headers statusCode (mkReader "body" EOF))
      /\ (forall k, Header.values headers k
                    = values_of k ["Set-Cookie: a=1"; "X-B: 2"; "set-cookie: c=3"])
      /\ (forall order rw k,
             map_range headers order ->
             Header.values (setHeaders order rw) k
             = (Header.values rw k
                ++ values_of k ["Set-Cookie: a=1"; "X-B: 2"; "set-cookie: c=3"])%list).
Proof.
  split; [exact block_AABA_lines |].
  exact (header_values_preserved _ _ _ block_AABA_lines).
Defined.

Example values_of_repeated_key :
  values_of "Set-Cookie" ["Set-Cookie: a=1"; "X-B: 2"; "set-cookie: c=3"] = ["a=1"; "c=3"].
Proof. reflexivity. Qed.

(** C4, the order of distinct keys. The blocks [A: 1, B: 2] and
    [B: 2, A: 1] insert their two keys in opposite orders and are parsed
    to the same mapping: no reading of the mapping gives back the order
    in which the keys were inserted. *)
Lemma insertion_order_not_preserved :
  block_lines (mkReader block_AB EOF) ["A: 1"; "B: 2"] (mkReader "" EOF)
  /\ block_lines (mkReader block_BA EOF) ["B: 2"; "A: 1"] (mkReader "" EOF)
  /\ insertion_order ["A: 1"; "B: 2"] = ["A"; "B"]
  /\ insertion_order ["B: 2"; "A: 1"] = ["B"; "A"]
  /\ parseWindowsHeaders (mkReader block_AB EOF)
     = parseWindowsHeaders (mkReader block_BA EOF)
  /\ ~ exists recover : http_Header -> list string,
         forall buf lines body headers statusCode,
           block_lines buf lines body ->
           parseWindowsHeaders buf = Some (Parsed headers statusCode body) ->
           recover headers = insertion_order lines.
Proof.
  assert (HAB : block_lines (mkReader block_AB EOF) ["A: 1"; "B: 2"] (mkReader "" EOF)).
  { eapply block_line; [reflexivity | discriminate |].
    eapply block_line; [reflexivity | discriminate |].
    apply block_end. reflexivity. }
  assert (HBA : block_lines (mkReader block_BA EOF) ["B: 2"; "A: 1"] (mkReader "" EOF)).
  { eapply block_line; [reflexivity | discriminate |].
    eapply block_line; [reflexivity | discriminate |].
    apply block_end. reflexivity. }
  assert (Hsame : parseWindowsHeaders (mkReader block_AB EOF)
                  = parseWindowsHeaders (mkReader block_BA EOF))
    by (vm_compute; reflexivity).
  repeat split; try done.
  intros [recover Hrec].
  destruct (parseWindowsHeaders_from_total (mkReader block_AB EOF) ∅ 200) as [res Hres].
  fold (parseWindowsHeaders (mkReader block_AB EOF)) in Hres.
  pose proof (parseWindowsHeaders_from_block _ _ _ ∅ 200 HAB) as HpAB.
  fold (parseWindowsHeaders (mkReader block_AB EOF)) in HpAB.
  pose proof HpAB as HpBA. rewrite Hsame in HpBA.
  pose proof (Hrec _ _ _ _ _ HAB HpAB) as H1.
  pose proof (Hrec _ _ _ _ _ HBA HpBA) as H2.
  rewrite H1 in H2. vm_compute in H2. discriminate.
Qed.

End header_order.

(** ** Environment builder *)

Section environment.

Lemma foldl_addHeaderVar (env : list string) (order : list (string * list string)) :
  foldl addHeaderVar env order = (env ++ omap headerVar order)%list.
Proof.
  revert env. induction order as [|[key values] order IH]; intros env; simpl.
  - by rewrite app_nil_r.
  - rewrite IH. unfold headerVar. destruct values as [|v0 values]; simpl; [done |].
    by rewrite <- app_assoc.
Qed.

Lemma foldl_addInherited (Getenv : string -> string) (env keys : list string) :
  foldl (addInherited Getenv) env keys = (env ++ omap (inheritedVar Getenv) keys)%list.
Proof.
  revert env. induction keys as [|key keys IH]; intros env; simpl.
  - by rewrite app_nil_r.
  - rewrite IH. unfold addInherited, inheritedVar.
    destruct (String.eqb (Getenv key) ""); simpl; [done |].
    by rewrite <- app_assoc.
Qed.

(** The four parts of the environment, in their order. *)
Lemma buildEnv_parts (h : WindowsCGIHandler) (req : Request)
    (order : list (string * list string)) (Getenv : string -> string) :
  buildEnv h req order Getenv
  = (fixedEnv req ++ omap headerVar order ++ Env (Handler h)
     ++ omap (inheritedVar Getenv) (InheritEnv (Handler h)))%list.
Proof.
  unfold buildEnv. rewrite foldl_addInherited, foldl_addHeaderVar.
  by rewrite <- !app_assoc.
Qed.

Lemma fixedEnv_keys (req : Request) : env_key <$> fixedEnv req = fixedKeys.
Proof. reflexivity. Qed.

Lemma fixedKeys_NoDup : NoDup fixedKeys.
Proof. by_evaluation. Qed.

Lemma contains_map (c : ascii) (f : ascii -> ascii) (s : string) :
  (forall b, f b <> c) -> Bytes.contains c (Bytes.map f s) = false.
Proof.
  intros Hf. induction s as [|b s IH]; simpl; [done |].
  destruct (Ascii.eqb_spec (f b) c) as [Heq|_]; [by apply Hf in Heq | done].
Qed.

Lemma map_map (f g : ascii -> ascii) (s : string) :
  Bytes.map f (Bytes.map g s) = Bytes.map (fun b => f (g b)) s.
Proof. induction s as [|b s IH]; simpl; [done | by rewrite IH]. Qed.

(** The name made from a header key holds no dash. *)
Lemma header_name_no_dash (key : string) :
  Bytes.contains "-" (strings.ToUpper (strings.ReplaceAll key "-" "_")) = false.
Proof.
  unfold strings.ToUpper, strings.ReplaceAll. rewrite map_map.
  apply contains_map. intros b.
  destruct b as [[] [] [] [] [] [] [] []]; vm_compute; discriminate.
Qed.

End environment.

Section environment_claims.

(** C7. The loop over the request headers contributes, between the
    fixed variables and the handler's own, exactly one entry for each
    header that has a value: it is named [HTTP_] followed by the header
    name in upper case with [_] for [-] (so it holds no dash), and its
    value is the header's first value. The request with the one header
    "X-Foo: bar, baz" yields HTTP_X_FOO=bar, and no entry is named
    HTTP-X-FOO. *)
Theorem buildEnv_header_variables (h : WindowsCGIHandler) (req : Request)
    (order : list (string * list string)) (Getenv : string -> string) :
  map_range (Header req) order ->
  exists vars,
    buildEnv h req order Getenv
    = (fixedEnv req ++ vars ++ Env (Handler h)
       ++ omap (inheritedVar Getenv) (InheritEnv (Handler h)))%list
    /\ vars ≡ₚ omap headerVar (map_to_list (Header req))
    /\ (forall key v0 values,
           Header req !! key = Some (v0 :: values) ->
           ("HTTP_" +:+ strings.ToUpper (strings.ReplaceAll key "-" "_") +:+ "=" +:+ v0)
             ∈ vars)
    /\ (forall key,
           Bytes.contains "-" (strings.ToUpper (strings.ReplaceAll key "-" "_")) = false)
    /\ buildEnv h_plain req_xfoo [("X-Foo", ["bar"; "baz"])] Getenv
       = (fixedEnv req_xfoo ++ ["HTTP_X_FOO=bar"])%list
    /\ "HTTP-X-FOO" ∉ env_key <$> buildEnv h_plain req_xfoo [("X-Foo", ["bar"; "baz"])] Getenv.
Proof.
  intros Hrange. exists (omap headerVar order).
  split; [apply buildEnv_parts |].
  split; [by rewrite Hrange |].
  split.
  { intros key v0 values Hlook. apply list_elem_of_omap.
    exists (key, v0 :: values). split; [|done].
    rewrite Hrange. by apply elem_of_map_to_list. }
  split; [apply header_name_no_dash |].
  split; [reflexivity |].
  by_evaluation.
Qed.

Lemma buildEnv_header_variables_witness :
  map_range (Header req_xfoo) [("X-Foo", ["bar"; "baz"])]
  /\ exists vars,
      buildEnv h_plain req_xfoo [("X-Foo", ["bar"; "baz"])] (fun _ => "")
      = (fixedEnv req_xfoo ++ vars)%list
      /\ vars ≡ₚ ["HTTP_X_FOO=bar"].
Proof.
  assert (Hrange : map_range (Header req_xfoo) [("X-Foo", ["bar"; "baz"])]).
  { unfold map_range. simpl. by rewrite map_to_list_singleton. }
  split; [exact Hrange |].
  destruct (buildEnv_header_variables h_plain req_xfoo _ (fun _ => "") Hrange)
    as (vars & Henv & Hperm & _).
  exists vars. split.
  - rewrite Henv. simpl. by rewrite !app_nil_r.
  - rewrite Hperm. simpl. by rewrite map_to_list_singleton.
Defined.

(** *** What the process finds: [exec.Cmd] on the sequence of [buildEnv] *)










(** The sequence of [buildEnv] itself keeps every entry: for a handler
    whose [Env] sets PATH_INFO and SCRIPT_NAME it holds each of the two
    keys twice, and it is [cmd.Start()] that drops the earlier entry. *)
Example buildEnv_repeats_keys :
  buildEnv h_script req_xfoo [("X-Foo", ["bar"; "baz"])] (fun _ => "")
  = [ "REQUEST_METHOD=GET"; "SCRIPT_NAME=/cgi/hello"; "PATH_INFO=/cgi/hello";
      "QUERY_STRING=a=b"; "CONTENT_TYPE="; "CONTENT_LENGTH=0";
      "SERVER_NAME=example.org:8080"; "SERVER_PORT=8080";
      "SERVER_PROTOCOL=HTTP/1.1"; "SERVER_SOFTWARE=caddy-cgi";
      "GATEWAY_INTERFACE=CGI/1.1"; "REMOTE_ADDR=10.0.0.1:5000";
      "REMOTE_HOST=10.0.0.1:5000"; "HTTP_X_FOO=bar"; "PATH_INFO=/hello";
      "SCRIPT_FILENAME=/bin/hello"; "SCRIPT_NAME=/cgi"; "SCRIPT_EXEC=/bin/hello ";
      "REMOTE_USER=" ].
Proof. vm_compute. reflexivity. Qed.

End environment_claims.

(** ** Response writer adapter *)

Section instant_writer.

(** C9, as the code has it. [instantWriter.Write] returns the byte count
    and the error of the wrapped writer's [Write] unchanged, and calls
    [Flush] on the writer after the write, whether the write succeeded
    or failed (the wrapped writer being an [http.Flusher]). *)
Theorem instantWriter_Write_flushes_always {W : Type} `{ResponseWriter W}
    (iw : instantWriter W) (b : string) (Flush : W -> W) :
  rw_Flush = Some Flush ->
  instantWriter_Write iw b
  = (Returned (rw_Write (iw_ResponseWriter iw) b).1,
     {| iw_ResponseWriter := Flush (rw_Write (iw_ResponseWriter iw) b).2 |}).
Proof.
  intros HFlush. unfold instantWriter_Write.
  destruct (rw_Write (iw_ResponseWriter iw) b) as [[n err] w]. by rewrite HFlush.
Qed.

Lemma instantWriter_Write_flushes_always_witness :
  instantWriter_Write {| iw_ResponseWriter := mkRecorder None [] |} "hi"
  = (Returned (2, None),
     {| iw_ResponseWriter := mkRecorder None [CallWrite "hi" 2 None; CallFlush] |}).
Proof.
  exact (instantWriter_Write_flushes_always
           {| iw_ResponseWriter := mkRecorder None [] |} "hi" _ eq_refl).
Defined.

(** C9, as stated. On a writer whose [Write] fails, [Write] of the
    adapter returns that failure, and the failed write is followed by a
    flush. *)
Lemma instantWriter_flushes_after_failed_write :
  instantWriter_Write {| iw_ResponseWriter := broken_writer |} "hi"
  = (Returned (0, Some (ErrOther "broken pipe")),
     {| iw_ResponseWriter :=
          mkRecorder (Some (ErrOther "broken pipe"))
                     [CallWrite "hi" 0 (Some (ErrOther "broken pipe")); CallFlush] |}).
Proof. reflexivity. Qed.

End instant_writer.

(** ** Body reframing *)

Section reframing.

Lemma wrap64_small (z : Z) : - 2 ^ 63 <= z < 2 ^ 63 -> wrap64 z = z.
Proof. intros Hz. unfold wrap64. rewrite Z.mod_small; lia. Qed.

Lemma len_app (s t : string) : Bytes.len (s +:+ t) = Bytes.len s + Bytes.len t.
Proof. unfold Bytes.len. rewrite length_app. lia. Qed.

Lemma len_take (n : Z) (s : string) :
  0 <= n <= Bytes.len s -> Bytes.len (Bytes.take (Z.to_nat n) s) = n.
Proof. unfold Bytes.len. intros Hn. rewrite length_take. lia. Qed.

(** [io.CopyN] from a stream that ends cleanly before the limit. *)
Lemma CopyN_bytes_short (data : string) (n : Z) :
  Bytes.len data < n ->
  io.CopyN_bytes (mkReader data EOF) n
  = ((data, Bytes.len data, Some EOF), mkReader "" EOF).
Proof.
  intros Hlt. unfold io.CopyN_bytes; simpl.
  assert (Hn : (String.length data <= Z.to_nat n)%nat) by (unfold Bytes.len in Hlt; lia).
  rewrite (take_all _ _ Hn), (drop_all _ _ Hn).
  destruct (Bytes.len data =? n) eqn:Heq; [apply Z.eqb_eq in Heq; lia |].
  destruct (Bytes.len data <? n) eqn:Hltb; [done | apply Z.ltb_ge in Hltb; lia].
Qed.

Lemma CopyN_short (mem : Memory) (cap : Z) (data : string) (n : Z) :
  Bytes.len data < n ->
  Buffer.ReadFrom mem cap (Bytes.len data) = Returned tt ->
  io.CopyN mem cap (mkReader data EOF) n
  = Returned ((data, Bytes.len data, Some EOF), mkReader "" EOF).
Proof.
  intros Hlt Hroom. unfold io.CopyN. rewrite (CopyN_bytes_short _ _ Hlt).
  cbn [fst snd]. by rewrite Hroom.
Qed.

(** [io.CopyN] from a stream that holds the limit or more. *)
Lemma CopyN_bytes_full (data : string) (e : error) (n : Z) :
  0 <= n <= Bytes.len data ->
  io.CopyN_bytes (mkReader data e) n
  = ((Bytes.take (Z.to_nat n) data, n, None), mkReader (Bytes.drop (Z.to_nat n) data) e).
Proof.
  intros Hn. unfold io.CopyN_bytes; simpl.
  rewrite (len_take _ _ Hn), Z.eqb_refl. done.
Qed.

Lemma CopyN_full (mem : Memory) (cap : Z) (data : string) (e : error) (n : Z) :
  0 <= n <= Bytes.len data ->
  Buffer.ReadFrom mem cap n = Returned tt ->
  io.CopyN mem cap (mkReader data e) n
  = Returned ((Bytes.take (Z.to_nat n) data, n, None),
              mkReader (Bytes.drop (Z.to_nat n) data) e).
Proof.
  intros Hn Hroom. unfold io.CopyN. rewrite (CopyN_bytes_full _ _ _ Hn).
  cbn [fst snd]. by rewrite Hroom.
Qed.

(** A pooled buffer below the limit is grown when the sum does not pass
    [maxInt] and the runtime grants the bytes; it then takes whatever the
    limit lets through. *)
Lemma buffer_takes_grown (c : CGI) (mem : Memory) (size : Z) :
  0 <= buf_Cap mem < BufferLimit c ->
  BufferLimit c + Buffer.MinRead + 2 * buf_Cap mem <= Buffer.maxInt ->
  makeslice mem (Z.max (BufferLimit c + Buffer.MinRead) (2 * buf_Cap mem)) = true ->
  size <= BufferLimit c ->
  buffer_takes c mem size.
Proof.
  unfold Buffer.MinRead, Buffer.maxInt. intros Hcap Hsum Hmem Hsize.
  exists (Z.max (BufferLimit c + 512) (2 * buf_Cap mem)). split.
  - unfold reserve, Buffer.Grow, Buffer.MinRead, Buffer.smallBufferSize, Buffer.maxInt.
    destruct (buf_Cap mem <? BufferLimit c) eqn:Hlt; [|apply Z.ltb_ge in Hlt; lia].
    rewrite wrap64_small by lia.
    destruct (_ <? 0) eqn:H0; [apply Z.ltb_lt in H0; lia |].
    destruct (_ <=? buf_Cap mem) eqn:H1; [apply Z.leb_le in H1; lia |].
    destruct (_ <=? 64) eqn:H2; [apply Z.leb_le in H2; lia |].
    rewrite andb_false_r.
    destruct (_ <=? buf_Cap mem / 2) eqn:H3.
    { apply Z.leb_le in H3.
      pose proof (Z.mul_div_le (buf_Cap mem) 2 ltac:(lia)). lia. }
    destruct (_ <? buf_Cap mem) eqn:H4; [apply Z.ltb_lt in H4; lia |].
    by rewrite Hmem.
  - unfold Buffer.ReadFrom, Buffer.MinRead.
    destruct (_ <=? _) eqn:Hle; [done | apply Z.leb_gt in Hle; lia].
Qed.

Lemma canonical_Transfer_Encoding :
  textproto.CanonicalMIMEHeaderKey "Transfer-Encoding" = "Transfer-Encoding".
Proof. reflexivity. Qed.

Lemma canonical_Content_Length :
  textproto.CanonicalMIMEHeaderKey "Content-Length" = "Content-Length".
Proof. reflexivity. Qed.

(** The request the chunked branch ends with. *)
Lemma reframed_fields (r : Request) (body : ReadCloser) (size : Z) :
  Body (reframed r body size) = body
  /\ ContentLength (reframed r body size) = size
  /\ TransferEncoding (reframed r body size) = []
  /\ Header (reframed r body size) !! "Transfer-Encoding" = None
  /\ Header.values (Header (reframed r body size)) "Content-Length"
     = (Header.values (Header r) "Content-Length" ++ [strconv.FormatInt size])%list
  /\ (Header r !! "Content-Length" = None ->
      Header.Get (Header (reframed r body size)) "Content-Length"
      = strconv.FormatInt size).
Proof.
  unfold reframed; simpl. repeat split.
  - unfold Header.Add, Header.Del.
    rewrite canonical_Transfer_Encoding, canonical_Content_Length.
    rewrite lookup_insert_ne by done. apply lookup_delete_eq.
  - rewrite Header_Add_values, canonical_Content_Length.
    rewrite decide_True by done. f_equal.
    unfold Header.values, Header.Del. rewrite canonical_Transfer_Encoding.
    by rewrite lookup_delete_ne.
  - intros Hnone. unfold Header.Get, Header.Add, Header.Del.
    rewrite canonical_Transfer_Encoding, canonical_Content_Length.
    rewrite lookup_insert_eq, lookup_delete_ne by done. by rewrite Hnone.
Qed.

(** [ServeHTTP] hands on the request that the reframing step returns. *)
Lemma CGI_ServeHTTP_reframed {R : Type} `{Replacer R} (c : CGI) (repl : R) (r r' : Request)
    (mem : Memory) (fs fs' : FS) (environ : list string) (tmp : option string) :
  reframe c r mem fs = (Returned (r', tmp), fs') ->
  exists inv,
    CGI_ServeHTTP c repl r mem fs environ = (Returned inv, fs')
    /\ inv_request inv = r' /\ inv_tempfile inv = tmp.
Proof.
  intros Hre. unfold CGI_ServeHTTP. rewrite Hre. eexists.
  split; [reflexivity |]. split; reflexivity.
Qed.

(** The in-memory branch: a body that ends cleanly below the limit. *)
Lemma reframe_in_buffer (c : CGI) (r : Request) (mem : Memory) (fs : FS) (data : string)
    (te : list string) :
  TransferEncoding r = "chunked" :: te ->
  body_reader (Body r) fs = mkReader data EOF ->
  Bytes.len data < BufferLimit c ->
  buffer_takes c mem (Bytes.len data) ->
  reframe c r mem fs = (Returned (reframed r (BodyBuffer data) (Bytes.len data), None), fs).
Proof.
  intros HTE Hbody Hlt (cap & Hres & Hroom).
  unfold reframe. rewrite HTE, Hbody. simpl. rewrite Hres.
  rewrite (CopyN_short _ _ _ _ Hlt Hroom). simpl.
  destruct (Bytes.len data =? BufferLimit c) eqn:Heq; [|done].
  apply Z.eqb_eq in Heq. lia.
Qed.

(** The temporary-file branch, for a positive limit that the body
    reaches: the file receives the whole body; then the end of the stream
    and the seek decide. *)
Lemma reframe_spill (c : CGI) (r : Request) (mem : Memory) (fs : FS) (data : string)
    (e : error) (te : list string) :
  TransferEncoding r = "chunked" :: te ->
  body_reader (Body r) fs = mkReader data e ->
  0 < BufferLimit c <= Bytes.len data ->
  Bytes.len data < 2 ^ 63 ->
  buffer_takes c mem (BufferLimit c) ->
  fs_create_err fs = None -> fs_write_err fs = None ->
  reframe c r mem fs
  = if decide (e = EOF) then
      match fs_seek_err fs with
      | Some e' =>
          (Failed e',
           os.Remove (fs_with_files fs (<[fs_temp_name fs := data]> (fs_files fs)))
                     (fs_temp_name fs))
      | None =>
          (Returned (reframed r (BodyFile (fs_temp_name fs)) (Bytes.len data),
                     Some (fs_temp_name fs)),
           fs_with_files fs (<[fs_temp_name fs := data]> (fs_files fs)))
      end
    else
      (Failed e,
       os.Remove (fs_with_files fs (<[fs_temp_name fs := data]> (fs_files fs)))
                 (fs_temp_name fs)).
Proof.
  intros HTE Hbody HL HS (cap & Hres & Hroom) Hcreate Hwrite.
  destruct fs as [files tmp e1 e2 e3]. simpl in *. subst e1 e2.
  unfold reframe. rewrite HTE, Hbody. simpl. rewrite Hres.
  rewrite (CopyN_full mem cap data e (BufferLimit c)) by (done || lia). simpl.
  rewrite Z.eqb_refl.
  unfold os.CreateTemp, os.Write, io.CopyBuffer, os.Write, os.Seek, os.Remove,
    fs_with_files. simpl.
  rewrite lookup_insert_eq, insert_insert_eq. simpl.
  rewrite (len_take (BufferLimit c) data) by lia.
  destruct (BufferLimit c =? 0) eqn:H0; [apply Z.eqb_eq in H0; lia |].
  set (n := Z.to_nat (BufferLimit c)).
  assert (Hsum : Bytes.len (Bytes.drop n data) = Bytes.len data - BufferLimit c).
  { unfold Bytes.len. rewrite length_drop. unfold Bytes.len in HL. lia. }
  destruct (Bytes.len (Bytes.drop n data) =? 0) eqn:Hrest; simpl.
  - apply Z.eqb_eq in Hrest.
    assert (Htake : Bytes.take n data = data).
    { apply len_zero_iff in Hrest.
      rewrite <- (take_drop n data) at 2. by rewrite Hrest, app_empty_r. }
    rewrite Htake. destruct (decide (e = EOF)); [|done].
    rewrite wrap64_small by lia.
    replace (BufferLimit c + 0) with (Bytes.len data) by lia.
    by destruct e3.
  - change ("" +:+ Bytes.take n data) with (Bytes.take n data).
    rewrite lookup_insert_eq, insert_insert_eq. cbn [default from_option id].
    rewrite take_drop.
    destruct (decide (e = EOF)); [|done].
    rewrite Hsum, wrap64_small by lia.
    replace (BufferLimit c + (Bytes.len data - BufferLimit c)) with (Bytes.len data) by lia.
    by destruct e3.
Qed.

(** C1, as the code has it: for a positive buffer limit that the buffer
    takes (where the capacity of the pooled buffer is below the limit,
    [Grow] is called with the limit and [MinRead] more, which must stay
    below [2^63] and be granted by the runtime). A chunked body of [S]
    bytes that ends cleanly is replaced by the in-memory buffer when
    [S < L], and when [S >= L] by a temporary file that holds the body
    (its creation, the writes and the seek succeeding); in both cases the
    new request has [ContentLength = S], an empty [TransferEncoding], no
    Transfer-Encoding header, and [S] as the last Content-Length header
    value, and it is this request that [ServeHTTP] hands to the CGI
    handler. *)
Theorem reframe_chunked_body {R : Type} `{Replacer R} (c : CGI) (repl : R) (r : Request)
    (mem : Memory) (fs : FS) (environ : list string) (data : string) (te : list string) :
  TransferEncoding r = "chunked" :: te ->
  body_reader (Body r) fs = mkReader data EOF ->
  0 < BufferLimit c < 2 ^ 63 ->
  Bytes.len data < 2 ^ 63 ->
  buffer_takes c mem (Z.min (Bytes.len data) (BufferLimit c)) ->
  (Bytes.len data < BufferLimit c ->
   reframe c r mem fs
   = (Returned (reframed r (BodyBuffer data) (Bytes.len data), None), fs))
  /\ (BufferLimit c <= Bytes.len data ->
      fs_create_err fs = None -> fs_write_err fs = None -> fs_seek_err fs = None ->
      exists fs',
        reframe c r mem fs
        = (Returned (reframed r (BodyFile (fs_temp_name fs)) (Bytes.len data),
                     Some (fs_temp_name fs)), fs')
        /\ fs_files fs' !! fs_temp_name fs = Some data)
  /\ (forall body,
         ContentLength (reframed r body (Bytes.len data)) = Bytes.len data
         /\ TransferEncoding (reframed r body (Bytes.len data)) = []
         /\ Header (reframed r body (Bytes.len data)) !! "Transfer-Encoding" = None
         /\ Header.values (Header (reframed r body (Bytes.len data))) "Content-Length"
            = (Header.values (Header r) "Content-Length"
               ++ [strconv.FormatInt (Bytes.len data)])%list)
  /\ (forall r' tmp fs',
         reframe c r mem fs = (Returned (r', tmp), fs') ->
         exists inv,
           CGI_ServeHTTP c repl r mem fs environ = (Returned inv, fs')
           /\ inv_request inv = r').
Proof.
  intros HTE Hbody HL HS Hbuf.
  pose proof (len_nonneg data) as Hlen.
  split; [|split; [|split]].
  - intros Hlt. rewrite Z.min_l in Hbuf by lia.
    by apply (reframe_in_buffer c r mem fs data te).
  - intros Hge Hcreate Hwrite Hseek. rewrite Z.min_r in Hbuf by lia.
    rewrite (reframe_spill c r mem fs data EOF te HTE Hbody) by (done || lia).
    simpl. rewrite Hseek. eexists. split; [reflexivity |]. simpl.
    by rewrite lookup_insert_eq.
  - intros body.
    destruct (reframed_fields r body (Bytes.len data)) as (_ & ? & ? & ? & ? & _).
    done.
  - intros r' tmp fs' Hre.
    destruct (CGI_ServeHTTP_reframed c repl r r' mem fs fs' environ tmp Hre)
      as (inv & ? & ? & _).
    by exists inv.
Qed.

Lemma reframe_chunked_body_witness :
  TransferEncoding (req_chunked (mkReader "abcdefgh" EOF)) = "chunked" :: []
  /\ body_reader (Body (req_chunked (mkReader "abcdefgh" EOF))) fs_ok
     = mkReader "abcdefgh" EOF
  /\ 0 < BufferLimit cgi_hello < 2 ^ 63
  /\ Bytes.len "abcdefgh" < 2 ^ 63
  /\ buffer_takes cgi_hello mem_ok (Z.min (Bytes.len "abcdefgh") (BufferLimit cgi_hello))
  /\ exists fs',
      reframe cgi_hello (req_chunked (mkReader "abcdefgh" EOF)) mem_ok fs_ok
      = (Returned (reframed (req_chunked (mkReader "abcdefgh" EOF))
                            (BodyFile "/tmp/cgi_body_1") 8,
                   Some "/tmp/cgi_body_1"), fs')
      /\ fs_files fs' !! "/tmp/cgi_body_1" = Some "abcdefgh".
Proof.
  assert (Hbuf : buffer_takes cgi_hello mem_ok
                   (Z.min (Bytes.len "abcdefgh") (BufferLimit cgi_hello))).
  { exists 516. split; reflexivity. }
  split; [reflexivity |]. split; [reflexivity |]. split; [split; reflexivity |].
  split; [reflexivity |]. split; [exact Hbuf |].
  apply (reframe_chunked_body cgi_hello tt (req_chunked (mkReader "abcdefgh" EOF))
           mem_ok fs_ok [] "abcdefgh" [] eq_refl eq_refl (conj eq_refl eq_refl) eq_refl Hbuf);
    [vm_compute; discriminate | reflexivity..].
Defined.

Example reframe_in_memory :
  reframe cgi_hello (req_chunked (mkReader "abc" EOF)) mem_ok fs_ok
  = (Returned (reframed (req_chunked (mkReader "abc" EOF)) (BodyBuffer "abc") 3, None),
     fs_ok).
Proof. reflexivity. Qed.

(** C1, as stated, at limits that the amended statement leaves out. With
    the limit 0, a body of four bytes reaches the temporary-file branch
    with an empty buffer, and [io.CopyBuffer] panics on the empty scratch
    slice; with the limit -1, nothing is copied and the request goes on
    with an empty in-memory body of length 0: in neither case does a
    temporary file hold the body, though [S >= L]. With the limit
    [2^63 - 1], the sum handed to [Grow] has wrapped round to a negative
    number, and with the limit [2^62] the runtime refuses the bytes:
    [Grow] panics before a byte is read, and no in-memory body of four
    bytes comes back, though [S < L]. *)
Lemma reframe_at_other_limits :
  (reframe (cgi_limit 0) (req_chunked (mkReader "abcd" EOF)) mem_ok fs_ok).1
  = Panicked "empty buffer in CopyBuffer"
  /\ reframe (cgi_limit (-1)) (req_chunked (mkReader "abcd" EOF)) mem_ok fs_ok
     = (Returned (reframed (req_chunked (mkReader "abcd" EOF)) (BodyBuffer "") 0, None),
        fs_ok)
  /\ ~ (BufferLimit (cgi_limit (-1)) <= Bytes.len "abcd" ->
        exists fs',
          reframe (cgi_limit (-1)) (req_chunked (mkReader "abcd" EOF)) mem_ok fs_ok
          = (Returned (reframed (req_chunked (mkReader "abcd" EOF))
                                (BodyFile (fs_temp_name fs_ok)) (Bytes.len "abcd"),
                       Some (fs_temp_name fs_ok)), fs'))
  /\ reframe (cgi_limit (2 ^ 63 - 1)) (req_chunked (mkReader "abcd" EOF)) mem_ok fs_ok
     = (Panicked "bytes.Buffer.Grow: negative count", fs_ok)
  /\ reframe (cgi_limit (2 ^ 62)) (req_chunked (mkReader "abcd" EOF)) mem_ok fs_ok
     = (Panicked "bytes.Buffer: too large", fs_ok)
  /\ ~ (Bytes.len "abcd" < BufferLimit (cgi_limit (2 ^ 63 - 1)) ->
        reframe (cgi_limit (2 ^ 63 - 1)) (req_chunked (mkReader "abcd" EOF)) mem_ok fs_ok
        = (Returned (reframed (req_chunked (mkReader "abcd" EOF)) (BodyBuffer "abcd")
                              (Bytes.len "abcd"), None), fs_ok)).
Proof.
  split; [reflexivity |]. split; [reflexivity |].
  split.
  { intros Hclaim. destruct Hclaim as [fs' Hre]; [vm_compute; discriminate |].
    vm_compute in Hre. discriminate. }
  split; [vm_compute; reflexivity |]. split; [vm_compute; reflexivity |].
  intros Hclaim.
  assert (Hre : reframe (cgi_limit (2 ^ 63 - 1)) (req_chunked (mkReader "abcd" EOF))
                        mem_ok fs_ok
                = (Panicked "bytes.Buffer.Grow: negative count", fs_ok))
    by (vm_compute; reflexivity).
  rewrite Hre in Hclaim. discriminate Hclaim. vm_compute. reflexivity.
Qed.

End reframing.

(** ** The end-to-end scenarios of the specification *)

Section scenarios.

Example readWindowsLine_lf :
  readWindowsLine (mkReader ("ab" +:+ LFs +:+ "cd") EOF)
  = (("ab", None), mkReader "cd" EOF).
Proof. reflexivity. Qed.

Example readWindowsLine_crcrlf :
  readWindowsLine (mkReader ("ab" +:+ String Bytes.CR crlf +:+ "cd") EOF)
  = (("ab", None), mkReader "cd" EOF).
Proof. reflexivity. Qed.

Example TrimSpace_ex :
  strings.TrimSpace (String Bytes.CR "  a b" +:+ String Bytes.CR " ") = "a b"
  /\ strings.TrimSpace (String (Bytes.byte 194) (String (Bytes.byte 160) "x")) = "x".
Proof. split; reflexivity. Qed.

Example Split_ex :
  strings.SplitN2 "a: b:c" ":" = ["a"; " b:c"]
  /\ strings.Split "host:80:x" ":" = ["host"; "80"; "x"].
Proof. split; reflexivity. Qed.

Example Atoi_ex :
  strconv.Atoi "404" = Some 404 /\ strconv.Atoi "abc" = None
  /\ strconv.Atoi "-12" = Some (-12) /\ strconv.Atoi "20 " = None.
Proof. repeat split; reflexivity. Qed.

Example FormatInt_ex :
  strconv.FormatInt 10485760 = "10485760" /\ strconv.FormatInt 0 = "0"
  /\ strconv.FormatInt (-7) = "-7".
Proof. repeat split; reflexivity. Qed.

Example CanonicalMIMEHeaderKey_ex :
  textproto.CanonicalMIMEHeaderKey "content-TYPE" = "Content-Type"
  /\ textproto.CanonicalMIMEHeaderKey "x foo" = "x foo".
Proof. split; reflexivity. Qed.

(** Scenario 1: [Content-Type: text/plain CR LF CR LF hello]. *)
Example scenario_1 :
  parseWindowsHeaders
    (mkReader ("Content-Type: text/plain" +:+ crlf +:+ crlf +:+ "hello") EOF)
  = Some (Parsed {[ "Content-Type" := ["text/plain"] ]} 200 (mkReader "hello" EOF)).
Proof. vm_compute. reflexivity. Qed.

(** Scenario 2, the doubled-CR variant. *)
Example scenario_2 :
  parseWindowsHeaders
    (mkReader ("Status: 302 Found" +:+ crlf +:+ "Location: /x" +:+ String Bytes.CR crlf
               +:+ String Bytes.CR crlf +:+ "bye") EOF)
  = Some (Parsed {[ "Location" := ["/x"] ]} 302 (mkReader "bye" EOF)).
Proof. vm_compute. reflexivity. Qed.

(** A response that ends with the blank line of its header block: the
    blank line is read as the line [CR], and the parser runs into the
    end of the stream. *)
Example headers_only_response :
  parseWindowsHeaders (mkReader ("Location: /x" +:+ crlf +:+ crlf) EOF)
  = Some (ParseError (ErrOther "error reading CGI headers: EOF")).
Proof. vm_compute. reflexivity. Qed.

(** The deferred removal: after the request the temporary file is gone. *)
Example tempfile_removed :
  forall inv fs',
    CGI_ServeHTTP cgi_hello tt (req_chunked (mkReader "abcdefgh" EOF)) mem_ok fs_ok []
    = (Returned inv, fs') ->
    fs_files fs' !! "/tmp/cgi_body_1" = Some "abcdefgh"
    /\ fs_files (CGI_ServeHTTP_return inv fs') !! "/tmp/cgi_body_1" = None.
Proof. intros inv fs' [= <- <-]. split; vm_compute; reflexivity. Qed.

End scenarios.

(** * Further properties of the code *)

(** ** Line reader: what a line and its ending are *)

Section line_reader_more.

(** Bytes that are neither CR nor LF go to the line buffer. *)
Lemma readWindowsLine_loop_plain (e : error) (pre tail line : string) :
  Bytes.contains Bytes.CR pre = false ->
  Bytes.contains Bytes.LF pre = false ->
  readWindowsLine_loop e (pre +:+ tail) line = readWindowsLine_loop e tail (line +:+ pre).
Proof.
  revert line. induction pre as [|b pre IH]; intros line Hcr Hlf.
  - by rewrite app_empty_r.
  - apply contains_cons_false in Hcr as [Hb1 Hcr].
    apply contains_cons_false in Hlf as [Hb2 Hlf].
    rewrite app_cons. simpl.
    destruct (Ascii.eqb_spec b Bytes.LF); [done |].
    destruct (Ascii.eqb_spec b Bytes.CR); [done |].
    rewrite (IH _ Hcr Hlf), push_app. done.
Qed.

(** The input of a line read without error is the line, its ending and
    what is left in the reader; the ending is LF, CR LF, CR CR LF, or
    nothing at the end of the stream; and the line holds no LF. *)
Lemma readWindowsLine_loop_splits (e : error) (data acc l : string) (r' : Reader) :
  readWindowsLine_loop e data acc = ((l, None), r') ->
  Bytes.contains Bytes.LF acc = false ->
  exists t,
    acc +:+ data = l +:+ t +:+ rd_data r'
    /\ (t = "" /\ rd_data r' = "" \/ t = LFs \/ t = crlf \/ t = String Bytes.CR crlf)
    /\ Bytes.contains Bytes.LF l = false.
Proof.
  revert acc. induction data as [|b rest IH]; intros acc; simpl.
  - destruct (decide (e = EOF)); [|discriminate].
    destruct (0 <? Bytes.len acc); [|discriminate].
    intros [= <- <-] Hacc. exists "". simpl. split; [done |]. split; [by left | done].
  - assert (Hrec : b <> Bytes.LF ->
                   readWindowsLine_loop e rest (Bytes.push acc b) = (l, None, r') ->
                   Bytes.contains Bytes.LF acc = false ->
                   exists t,
                     acc +:+ String b rest = l +:+ t +:+ rd_data r'
                     /\ (t = "" /\ rd_data r' = "" \/ t = LFs \/ t = crlf
                         \/ t = String Bytes.CR crlf)
                     /\ Bytes.contains Bytes.LF l = false).
    { intros Hb Hr Hacc. rewrite <- push_app. apply IH; [done |].
      unfold Bytes.push. rewrite contains_app, Hacc. simpl.
      by destruct (Ascii.eqb_spec b Bytes.LF). }
    destruct (Ascii.eqb_spec b Bytes.LF) as [->|Hlf].
    { intros [= <- <-] Hacc. exists LFs. simpl. split; [done |]. split; [|done].
      right. by left. }
    destruct (Ascii.eqb_spec b Bytes.CR) as [->|Hcr]; [|by apply Hrec].
    destruct rest as [|c1 [|c2 rest]]; unfold bufio.Peek; simpl.
    + by apply Hrec.
    + by apply Hrec.
    + destruct (decide (c1 = Bytes.CR)) as [->|Hc1].
      * destruct (decide (c2 = Bytes.LF)) as [->|Hc2].
        -- simpl. intros [= <- <-] Hacc. exists (String Bytes.CR crlf). simpl.
           split; [done |]. split; [|done]. right. right. by right.
        -- rewrite (bool_decide_eq_false_2 (Some c2 = Some Bytes.LF)) by congruence.
           simpl. by apply Hrec.
      * rewrite (bool_decide_eq_false_2 (Some c1 = Some Bytes.CR)) by congruence.
        simpl. destruct (decide (c1 = Bytes.LF)) as [->|Hc1'].
        -- simpl. intros [= <- <-] Hacc. exists crlf. simpl.
           split; [done |]. split; [|done]. right. right. by left.
        -- rewrite (bool_decide_eq_false_2 (Some c1 = Some Bytes.LF)) by congruence.
           by apply Hrec.
Qed.

(** X1. Whatever the stream, a line read without error splits the input:
    the bytes the reader held are the line, then one line ending (LF,
    CR LF or CR CR LF; nothing only when the stream ended), then the bytes
    the reader still holds. No byte is dropped or read twice, and the line
    itself holds no LF. *)
Theorem readWindowsLine_splits_input (r r' : Reader) (line : string) :
  readWindowsLine r = ((line, None), r') ->
  exists t,
    rd_data r = line +:+ t +:+ rd_data r'
    /\ (t = "" /\ rd_data r' = "" \/ t = LFs \/ t = crlf \/ t = String Bytes.CR crlf)
    /\ Bytes.contains Bytes.LF line = false
    /\ rd_end r' = rd_end r.
Proof.
  intros Hread.
  destruct (readWindowsLine_loop_splits _ _ _ _ _ Hread eq_refl) as (t & Hsplit & Ht & Hlf).
  apply readWindowsLine_progress in Hread as [Hend _].
  exists t. done.
Qed.

Lemma readWindowsLine_splits_input_witness :
  readWindowsLine (mkReader ("a" +:+ String Bytes.CR "b" +:+ crlf +:+ "rest") EOF)
  = (("a" +:+ String Bytes.CR "b", None), mkReader "rest" EOF)
  /\ exists t,
      "a" +:+ String Bytes.CR "b" +:+ crlf +:+ "rest"
      = ("a" +:+ String Bytes.CR "b") +:+ t +:+ "rest"
      /\ (t = "" /\ "rest" = "" \/ t = LFs \/ t = crlf \/ t = String Bytes.CR crlf).
Proof.
  split; [reflexivity |].
  destruct (readWindowsLine_splits_input
              (mkReader ("a" +:+ String Bytes.CR "b" +:+ crlf +:+ "rest") EOF)
              (mkReader "rest" EOF) ("a" +:+ String Bytes.CR "b") eq_refl)
    as (t & Hsplit & Ht & _).
  exists t. split; [exact Hsplit | exact Ht].
Defined.

(** X2. A line free of CR and LF that is followed by LF, by CR CR LF, or
    by CR LF and at least one more byte is returned as it is, and the
    reader is left right behind the ending: the three endings are read
    alike. LF and CR CR LF are recognised also as the last bytes of the
    stream. *)
Theorem readWindowsLine_three_endings (e : error) (line : string) (t : terminator)
    (rest : string) :
  Bytes.contains Bytes.CR line = false ->
  Bytes.contains Bytes.LF line = false ->
  t <> EndCRLF \/ rest <> "" ->
  readWindowsLine (mkReader (line +:+ terminator_bytes t +:+ rest) e)
  = ((line, None), mkReader rest e).
Proof.
  intros Hcr Hlf Ht. unfold readWindowsLine; simpl.
  rewrite (readWindowsLine_loop_plain e line _ "" Hcr Hlf).
  change ("" +:+ line) with line.
  destruct t; simpl.
  - reflexivity.
  - destruct rest as [|c rest]; [by destruct Ht |]. simpl.
    unfold bufio.Peek; simpl. reflexivity.
  - destruct rest as [|c rest]; reflexivity.
Qed.

Lemma readWindowsLine_three_endings_witness :
  Bytes.contains Bytes.CR "X: y" = false
  /\ Bytes.contains Bytes.LF "X: y" = false
  /\ (EndCRCRLF <> EndCRLF \/ "" <> "")
  /\ readWindowsLine (mkReader ("X: y" +:+ terminator_bytes EndCRCRLF +:+ "") EOF)
     = (("X: y", None), mkReader "" EOF).
Proof.
  split; [reflexivity |]. split; [reflexivity |].
  split; [left; discriminate |].
  apply (readWindowsLine_three_endings EOF "X: y" EndCRCRLF "" eq_refl eq_refl).
  left; discriminate.
Defined.

End line_reader_more.

(** ** Header parser: complete blocks, and what comes back *)

Section parser_more.

Lemma readWindowsLine_ending (e : error) (line : string) (t : terminator) (rest : string) :
  Bytes.contains Bytes.CR line = false ->
  Bytes.contains Bytes.LF line = false ->
  t <> EndCRLF \/ rest <> "" ->
  readWindowsLine (mkReader (line +:+ terminator_bytes t +:+ rest) e)
  = ((line, None), mkReader rest e).
Proof.
  intros Hcr Hlf Ht. unfold readWindowsLine; simpl.
  rewrite (readWindowsLine_loop_plain e line _ "" Hcr Hlf).
  change ("" +:+ line) with line.
  destruct t; simpl.
  - reflexivity.
  - destruct rest as [|c rest]; [by destruct Ht |]. reflexivity.
  - destruct rest as [|c rest]; reflexivity.
Qed.

Lemma terminator_bytes_not_empty (t : terminator) (rest : string) :
  terminator_bytes t +:+ rest <> "".
Proof. by destruct t. Qed.

Lemma write_lines_not_empty (lines : list (string * terminator)) (rest : string) :
  rest <> "" -> write_lines lines rest <> "".
Proof.
  intros Hrest. destruct lines as [|[line t] lines]; [done |]. simpl.
  destruct line; [apply terminator_bytes_not_empty | done].
Qed.

(** Plain lines written with any endings, then a blank line: a header
    block with these lines. *)
Lemma block_lines_written (e : error) (lines : list (string * terminator))
    (blank : terminator) (body : string) :
  Forall (fun lt => plain_line lt.1) lines ->
  blank <> EndCRLF \/ body <> "" ->
  block_lines (mkReader (write_lines lines (terminator_bytes blank +:+ body)) e)
              (fst <$> lines) (mkReader body e).
Proof.
  intros Hplain Hblank. induction Hplain as [|[line t] lines (Hne & Hcr & Hlf) _ IH]; simpl.
  - apply block_end.
    apply (readWindowsLine_ending e "" blank body eq_refl eq_refl Hblank).
  - eapply block_line; [|exact Hne | exact IH].
    apply readWindowsLine_ending; [done | done |].
    right. apply write_lines_not_empty, terminator_bytes_not_empty.
Qed.

(** X3. A header block of plain lines is parsed to the same headers,
    status and body whatever mixture of LF, CR LF and CR CR LF ends its
    lines and its blank line (a blank line ended by CR LF needing a
    non-empty body): the result is what the lines make of the empty
    mapping and status 200, and the body reader starts at the first byte
    behind the blank line. *)
Theorem parseWindowsHeaders_any_endings (e : error) (lines : list (string * terminator))
    (blank : terminator) (body : string) :
  Forall (fun lt => plain_line lt.1) lines ->
  blank <> EndCRLF \/ body <> "" ->
  parseWindowsHeaders (mkReader (write_lines lines (terminator_bytes blank +:+ body)) e)
  = Some (Parsed (parseHeaderLines (fst <$> lines) ∅ 200).1
                 (parseHeaderLines (fst <$> lines) ∅ 200).2
                 (mkReader body e)).
Proof.
  intros Hplain Hblank.
  apply parseWindowsHeaders_from_block. by apply block_lines_written.
Qed.

Lemma parseWindowsHeaders_any_endings_witness :
  Forall (fun lt : string * terminator => plain_line lt.1)
         [("Status: 302 Found", EndCRLF); ("Location: /x", EndCRCRLF)]
  /\ (EndCRCRLF <> EndCRLF \/ "bye" <> "")
  /\ parseWindowsHeaders
       (mkReader (write_lines [("Status: 302 Found", EndCRLF); ("Location: /x", EndCRCRLF)]
                              (terminator_bytes EndCRCRLF +:+ "bye")) EOF)
     = Some (Parsed {[ "Location" := ["/x"] ]} 302 (mkReader "bye" EOF)).
Proof.
  assert (Hplain : Forall (fun lt : string * terminator => plain_line lt.1)
                          [("Status: 302 Found", EndCRLF); ("Location: /x", EndCRCRLF)]).
  { constructor; [split; [discriminate | split; reflexivity] |].
    constructor; [split; [discriminate | split; reflexivity] |]. constructor. }
  assert (Hblank : EndCRCRLF <> EndCRLF \/ "bye" <> "") by (left; discriminate).
  split; [exact Hplain |]. split; [exact Hblank |].
  etransitivity;
    [exact (parseWindowsHeaders_any_endings EOF
              [("Status: 302 Found", EndCRLF); ("Location: /x", EndCRCRLF)]
              EndCRCRLF "bye" Hplain Hblank)
    | vm_compute; reflexivity].
Defined.

(** Either a complete block can be read from [buf], or the parser, from
    whatever state, fails with the end of the stream. *)
Lemma block_or_read_error (buf : Reader) :
  (exists lines body consumed,
      block_lines buf lines body
      /\ rd_end body = rd_end buf
      /\ rd_data buf = consumed +:+ rd_data body)
  \/ (forall headers statusCode,
         parseWindowsHeaders_from buf headers statusCode
         = Some (ParseError
                   (ErrOther ("error reading CGI headers: " +:+ Error (rd_end buf))))).
Proof.
  remember (String.length (rd_data buf)) as n eqn:Hn. revert buf Hn.
  induction (lt_wf n) as [n _ IH]; intros buf ->.
  destruct (readWindowsLine buf) as [[line [e'|]] buf'] eqn:Hread.
  - right. intros headers statusCode.
    rewrite parseWindowsHeaders_from_unfold, Hread.
    apply readWindowsLine_loop_error in Hread as [-> _]. done.
  - destruct (readWindowsLine_loop_splits _ _ _ _ _ Hread eq_refl) as (t & Hsplit & _ & _).
    change ("" +:+ rd_data buf) with (rd_data buf) in Hsplit.
    pose proof (readWindowsLine_progress _ _ _ Hread) as [Hend Hlt].
    destruct (decide (line = "")) as [->|Hne].
    + left. exists [], buf', t. split; [by apply block_end |]. done.
    + destruct (IH _ Hlt buf' eq_refl) as [(lines & body & consumed & Hb & He & Hd)|Herr].
      * left. exists (line :: lines), body, (line +:+ t +:+ consumed).
        split; [by eapply block_line |]. split; [congruence |].
        by rewrite Hsplit, Hd, !app_assoc_s.
      * right. intros headers statusCode.
        rewrite (parseWindowsHeaders_from_line _ _ _ _ _ Hread Hne), Herr, Hend. done.
Qed.


(** The headers and status returned are those of the lines of a block. *)
Lemma parseWindowsHeaders_Parsed_lines (reader body : Reader) (headers : http_Header)
    (statusCode : Z) :
  parseWindowsHeaders reader = Some (Parsed headers statusCode body) ->
  exists lines,
    block_lines reader lines body
    /\ headers = (parseHeaderLines lines ∅ 200).1
    /\ statusCode = (parseHeaderLines lines ∅ 200).2.
Proof.
  intros Hparse.
  destruct (block_or_read_error reader) as [(lines & body' & consumed & Hb & _ & _)|Herr].
  - pose proof (parseWindowsHeaders_from_block _ _ _ ∅ 200 Hb) as Hok.
    fold (parseWindowsHeaders reader) in Hok. rewrite Hparse in Hok.
    injection Hok as -> -> ->. by exists lines.
  - unfold parseWindowsHeaders in Hparse. rewrite Herr in Hparse. discriminate.
Qed.

End parser_more.

(** ** Header parser: the range of the status, the shape of the mapping *)

Section parser_results.

Lemma digit_range (c : ascii) (d : Z) : strconv.digit c = Some d -> 0 <= d <= 9.
Proof.
  unfold strconv.digit.
  destruct (48 <=? nat_of_ascii c)%nat eqn:H1; [|discriminate].
  destruct (nat_of_ascii c <=? 57)%nat eqn:H2; [|discriminate].
  apply Nat.leb_le in H1, H2. simpl. intros [= <-]. lia.
Qed.

Lemma digits_range (s : string) (acc n : Z) :
  strconv.digits acc s = Some n ->
  0 <= acc ->
  acc * 10 ^ Bytes.len s <= n < (acc + 1) * 10 ^ Bytes.len s.
Proof.
  revert acc. induction s as [|c s IH]; intros acc; simpl.
  - intros [= <-] Hacc. change (Bytes.len "") with 0. lia.
  - destruct (strconv.digit c) as [d|] eqn:Hd; [|discriminate].
    intros Hn Hacc. apply digit_range in Hd.
    apply IH in Hn; [|lia].
    assert (Hlen : Bytes.len (String c s) = Bytes.len s + 1).
    { unfold Bytes.len. simpl. lia. }
    pose proof (len_nonneg s).
    rewrite Hlen, Z.pow_add_r, Z.pow_1_r by lia.
    assert (0 < 10 ^ Bytes.len s) by (apply Z.pow_pos_nonneg; lia).
    nia.
Qed.

(** Three bytes spell an integer between -99 and 999. *)
Lemma Atoi_three_bytes (s : string) (n : Z) :
  Bytes.len s <= 3 -> strconv.Atoi s = Some n -> -99 <= n <= 999.
Proof.
  intros Hlen. unfold strconv.Atoi.
  destruct s as [|c rest]; [discriminate |].
  assert (Hrest : Bytes.len rest <= 2).
  { unfold Bytes.len in *. simpl in Hlen. lia. }
  pose proof (len_nonneg rest) as Hr0.
  assert (Hpow2 : forall k, 0 <= k <= 2 -> 0 < 10 ^ k <= 100).
  { intros k Hk. assert (k = 0 \/ k = 1 \/ k = 2) as [->| [->| ->]] by lia; lia. }
  assert (Hpow3 : forall k, 0 <= k <= 3 -> 0 < 10 ^ k <= 1000).
  { intros k Hk. assert (k = 0 \/ k = 1 \/ k = 2 \/ k = 3) as [->| [->| [->| ->]]] by lia; lia. }
  destruct (Ascii.eqb c "-").
  { destruct rest as [|c' rest']; [discriminate |].
    destruct (strconv.digits 0 (String c' rest')) as [m|] eqn:Hm; [|discriminate].
    simpl. intros [= <-]. apply digits_range in Hm; [|lia].
    specialize (Hpow2 _ (conj Hr0 Hrest)). lia. }
  destruct (Ascii.eqb c "+").
  { destruct rest as [|c' rest']; [discriminate |].
    intros Hm. apply digits_range in Hm; [|lia].
    specialize (Hpow2 _ (conj Hr0 Hrest)). lia. }
  intros Hm. apply digits_range in Hm; [|lia].
  pose proof (len_nonneg (String c rest)) as Hs0.
  specialize (Hpow3 _ (conj Hs0 Hlen)). lia.
Qed.

Lemma len_take_le (n : nat) (s : string) : Bytes.len (Bytes.take n s) <= Z.of_nat n.
Proof. unfold Bytes.len. rewrite length_take. lia. Qed.

Lemma parseHeaderLine_well_formed (line : string) (headers : http_Header) (statusCode : Z) :
  well_formed_result headers statusCode ->
  well_formed_result (parseHeaderLine line headers statusCode).1
                     (parseHeaderLine line headers statusCode).2.
Proof.
  intros Hwf. pose proof Hwf as (Hst & Hcan & Hne). rewrite parseHeaderLine_key_value.
  destruct (line_key_value line) as [[key value]|]; [|exact Hwf].
  destruct (String.eqb (strings.ToLower key) "status"); cbn [fst snd].
  - split; [|by split]. destruct (3 <=? Bytes.len value); [|done].
    destruct (strconv.Atoi (Bytes.take 3 value)) as [code|] eqn:Hcode; [|done].
    cbn [default from_option]. eapply Atoi_three_bytes; [|exact Hcode].
    apply (len_take_le 3).
  - split; [done |]. unfold Header.Add. split.
    + intros k Hk.
      destruct (decide (textproto.CanonicalMIMEHeaderKey key = k)) as [<-|Hneq].
      * apply CanonicalMIMEHeaderKey_idem.
      * rewrite lookup_insert_ne in Hk by done. auto.
    + intros k.
      destruct (decide (textproto.CanonicalMIMEHeaderKey key = k)) as [<-|Hneq].
      * rewrite lookup_insert_eq. intros [= Happ]. by apply app_eq_nil in Happ as [_ ?].
      * rewrite lookup_insert_ne by done. apply Hne.
Qed.

Lemma parseHeaderLines_well_formed (lines : list string) (headers : http_Header)
    (statusCode : Z) :
  well_formed_result headers statusCode ->
  well_formed_result (parseHeaderLines lines headers statusCode).1
                     (parseHeaderLines lines headers statusCode).2.
Proof.
  unfold parseHeaderLines. revert headers statusCode.
  induction lines as [|line lines IH]; intros headers statusCode Hwf; [done |].
  cbn [foldl fst snd]. apply (parseHeaderLine_well_formed line) in Hwf.
  destruct (parseHeaderLine line headers statusCode) as [h1 st1]. by apply IH.
Qed.

Lemma parseWindowsHeaders_well_formed (reader body : Reader) (headers : http_Header)
    (statusCode : Z) :
  parseWindowsHeaders reader = Some (Parsed headers statusCode body) ->
  well_formed_result headers statusCode.
Proof.
  intros Hparse.
  apply parseWindowsHeaders_Parsed_lines in Hparse as (lines & _ & -> & ->).
  apply parseHeaderLines_well_formed. repeat split; try lia.
  - intros k [v Hv]. by rewrite lookup_empty in Hv.
  - intros k. by rewrite lookup_empty.
Qed.

(** X5. Whatever the subprocess writes, the status code that
    [parseWindowsHeaders] returns lies between -99 and 999: it is 200 or
    what three bytes of a status line spell (a sign counts as one of the
    three, so "Status: -12" gives -12 and "Status: 099" gives 99). *)
Theorem parseWindowsHeaders_status_range (reader body : Reader) (headers : http_Header)
    (statusCode : Z) :
  parseWindowsHeaders reader = Some (Parsed headers statusCode body) ->
  -99 <= statusCode <= 999.
Proof. intros Hparse. by apply parseWindowsHeaders_well_formed in Hparse as (? & _). Qed.

Lemma parseWindowsHeaders_status_range_witness :
  parseWindowsHeaders (mkReader ("Status: -12" +:+ LFs +:+ LFs) EOF)
  = Some (Parsed ∅ (-12) (mkReader "" EOF))
  /\ -99 <= -12 <= 999.
Proof.
  split; [reflexivity |].
  exact (parseWindowsHeaders_status_range
           (mkReader ("Status: -12" +:+ LFs +:+ LFs) EOF) (mkReader "" EOF) ∅ (-12) eq_refl).
Defined.

(** X6. Every key of the mapping that [parseWindowsHeaders] returns is in
    canonical form (so header names that differ only in case share one
    key), and every key holds at least one value. *)
Theorem parseWindowsHeaders_keys_canonical (reader body : Reader) (headers : http_Header)
    (statusCode : Z) :
  parseWindowsHeaders reader = Some (Parsed headers statusCode body) ->
  forall k values,
    headers !! k = Some values ->
    textproto.CanonicalMIMEHeaderKey k = k /\ values <> [].
Proof.
  intros Hparse k values Hk.
  apply parseWindowsHeaders_well_formed in Hparse as (_ & Hcan & Hne).
  split; [by apply Hcan; exists values |]. intros ->. by apply (Hne k).
Qed.

Lemma parseWindowsHeaders_keys_canonical_witness :
  parseWindowsHeaders (mkReader block_AABA EOF)
  = Some (Parsed {[ "Set-Cookie" := ["a=1"; "c=3"]; "X-B" := ["2"] ]} 200
                 (mkReader "body" EOF))
  /\ textproto.CanonicalMIMEHeaderKey "Set-Cookie" = "Set-Cookie"
  /\ ["a=1"; "c=3"] <> [].
Proof.
  assert (H : parseWindowsHeaders (mkReader block_AABA EOF)
              = Some (Parsed {[ "Set-Cookie" := ["a=1"; "c=3"]; "X-B" := ["2"] ]} 200
                             (mkReader "body" EOF)))
    by (vm_compute; reflexivity).
  split; [exact H |].
  apply (parseWindowsHeaders_keys_canonical _ _ _ _ H "Set-Cookie" ["a=1"; "c=3"]).
  vm_compute. reflexivity.
Defined.

End parser_results.

(** ** The Windows handler: from the process output to the response *)

Section windows_handler.

Lemma foldl_Add_lookup (key : string) (v : string) (vs : list string) (rw : http_Header)
    (k : string) :
  textproto.CanonicalMIMEHeaderKey key = key ->
  foldl (fun rw value => Header.Add rw key value) rw (v :: vs) !! k
  = if decide (key = k) then Some (default [] (rw !! k) ++ v :: vs)%list else rw !! k.
Proof.
  intros Hcan. revert rw v. induction vs as [|v' vs IH]; intros rw v.
  - simpl. unfold Header.Add. rewrite Hcan.
    destruct (decide (key = k)) as [->|Hne];
      [by rewrite lookup_insert_eq | by rewrite lookup_insert_ne].
  - change (foldl (fun rw value => Header.Add rw key value) rw (v :: v' :: vs))
      with (foldl (fun rw value => Header.Add rw key value) (Header.Add rw key v) (v' :: vs)).
    rewrite IH. unfold Header.Add. rewrite Hcan.
    destruct (decide (key = k)) as [->|Hne].
    + rewrite lookup_insert_eq. simpl. by rewrite <- app_assoc.
    + by rewrite lookup_insert_ne.
Qed.

Lemma setHeaders_lookup (order : list (string * list string)) (rw : http_Header)
    (k : string) :
  NoDup order.*1 ->
  (forall key vs, (key, vs) ∈ order ->
                  textproto.CanonicalMIMEHeaderKey key = key /\ vs <> []) ->
  setHeaders order rw !! k
  = match (list_to_map order : http_Header) !! k with
    | Some vs => Some (default [] (rw !! k) ++ vs)%list
    | None => rw !! k
    end.
Proof.
  unfold setHeaders. revert rw.
  induction order as [|[key vs] order IH]; intros rw Hnodup Hwf.
  - simpl. by rewrite lookup_empty.
  - simpl in *. apply NoDup_cons in Hnodup as [Hnotin Hnodup].
    destruct (Hwf key vs ltac:(left)) as [Hcan Hvs].
    rewrite IH; [|done |intros key' vs' Hin; apply Hwf; by right].
    destruct vs as [|v vs]; [done |].
    rewrite (foldl_Add_lookup key v vs rw k Hcan).
    destruct (decide (key = k)) as [<-|Hne].
    + rewrite lookup_insert_eq, (not_elem_of_list_to_map_1 _ _ Hnotin). done.
    + rewrite lookup_insert_ne by done. done.
Qed.

Lemma setHeaders_fresh (headers : http_Header) (order : list (string * list string)) :
  map_range headers order ->
  (forall k, is_Some (headers !! k) -> textproto.CanonicalMIMEHeaderKey k = k) ->
  (forall k, headers !! k <> Some []) ->
  setHeaders order ∅ = headers.
Proof.
  unfold map_range. intros Hperm Hcan Hne.
  assert (Hnodup : NoDup order.*1).
  { rewrite Hperm. apply NoDup_fst_map_to_list. }
  assert (Hmap : list_to_map order = headers).
  { rewrite <- (list_to_map_to_list headers). by apply list_to_map_proper. }
  apply map_eq. intros k. rewrite setHeaders_lookup; [|done |].
  - rewrite Hmap, lookup_empty. by destruct (headers !! k).
  - intros key vs Hin. rewrite Hperm in Hin. apply elem_of_map_to_list in Hin.
    split; [apply Hcan; by exists vs |]. intros ->. by apply (Hne key).
Qed.

(** X7. The mapping that [parseWindowsHeaders] returns, applied by the
    loop "Set headers" to a response that has no headers yet, gives that
    response exactly the parsed mapping, in whatever order the range
    visits the keys: no key or value is lost, merged or added. *)
Theorem setHeaders_on_fresh_response (reader body : Reader) (headers : http_Header)
    (statusCode : Z) (order : list (string * list string)) :
  parseWindowsHeaders reader = Some (Parsed headers statusCode body) ->
  map_range headers order ->
  setHeaders order ∅ = headers.
Proof.
  intros Hparse Hrange.
  apply parseWindowsHeaders_well_formed in Hparse as (_ & Hcan & Hne).
  by apply setHeaders_fresh.
Qed.

Lemma setHeaders_on_fresh_response_witness :
  parseWindowsHeaders (mkReader block_BA EOF)
  = Some (Parsed {[ "A" := ["1"]; "B" := ["2"] ]} 200 (mkReader "" EOF))
  /\ map_range ({[ "A" := ["1"]; "B" := ["2"] ]} : http_Header) [("B", ["2"]); ("A", ["1"])]
  /\ setHeaders [("B", ["2"]); ("A", ["1"])] ∅
     = ({[ "A" := ["1"]; "B" := ["2"] ]} : http_Header).
Proof.
  assert (H : parseWindowsHeaders (mkReader block_BA EOF)
              = Some (Parsed {[ "A" := ["1"]; "B" := ["2"] ]} 200 (mkReader "" EOF)))
    by (vm_compute; reflexivity).
  assert (Hr : map_range ({[ "A" := ["1"]; "B" := ["2"] ]} : http_Header)
                         [("B", ["2"]); ("A", ["1"])]).
  { unfold map_range. rewrite map_to_list_insert by done.
    rewrite map_to_list_singleton. apply Permutation_swap. }
  split; [exact H |]. split; [exact Hr |].
  exact (setHeaders_on_fresh_response _ _ _ _ _ H Hr).
Defined.

(** The handler on Windows with a process that could be started: what
    happens is decided by the parse of the process output. *)
Lemma WindowsCGIHandler_ServeHTTP_started (rt : Runtime) (h : WindowsCGIHandler)
    (rw : Response) (req : Request) (order : list (string * list string))
    (range : http_Header -> list (string * list string)) (Getenv : string -> string) :
  GOOS rt = "windows" ->
  StdoutPipe_err rt = None -> StderrPipe_err rt = None -> Start_err rt = None ->
  WindowsCGIHandler_ServeHTTP rt h rw req order range Getenv
  = match parseWindowsHeaders (run rt (windowsCmd h req order Getenv)) with
    | None => (Panicked "", Some (windowsCmd h req order Getenv))
    | Some (ParseError err) =>
        (Returned (http_Error rt rw ("CGI header error: " +:+ Error err) 500),
         Some (windowsCmd h req order Getenv))
    | Some (Parsed headers statusCode bodyReader) =>
        match (if statusCode =? 0
               then Returned (response.with_Header rw
                                (setHeaders (range headers) (resp_Header rw)))
               else response.WriteHeader
                      (response.with_Header rw
                         (setHeaders (range headers) (resp_Header rw))) statusCode) with
        | Returned rw' =>
            (Returned (response.Write rw' (rd_data bodyReader)),
             Some (windowsCmd h req order Getenv))
        | Failed err => (Failed err, Some (windowsCmd h req order Getenv))
        | Panicked msg => (Panicked msg, Some (windowsCmd h req order Getenv))
        end
    end.
Proof.
  intros HOS H1 H2 H3. unfold WindowsCGIHandler_ServeHTTP.
  rewrite HOS, H1, H2, H3. reflexivity.
Qed.



(** X9. On Windows, with the process started, an output that holds no
    complete header block (no blank line before the stream ends) is
    answered through [http.Error] with status 500 and the message "CGI
    header error: error reading CGI headers: " followed by the error that
    ended the stream; the response writer has not been touched before:
    no header of the output is applied and none of its bytes forwarded. *)
Theorem WindowsCGIHandler_ServeHTTP_incomplete_block (rt : Runtime) (h : WindowsCGIHandler)
    (rw : Response) (req : Request) (order : list (string * list string))
    (range : http_Header -> list (string * list string)) (Getenv : string -> string) :
  GOOS rt = "windows" ->
  StdoutPipe_err rt = None -> StderrPipe_err rt = None -> Start_err rt = None ->
  (forall lines body, ~ block_lines (run rt (windowsCmd h req order Getenv)) lines body) ->
  WindowsCGIHandler_ServeHTTP rt h rw req order range Getenv
  = (Returned
       (http_Error rt rw
          ("CGI header error: error reading CGI headers: "
           +:+ Error (rd_end (run rt (windowsCmd h req order Getenv)))) 500),
     Some (windowsCmd h req order Getenv)).
Proof.
  intros HOS H1 H2 H3 Hnone.
  rewrite (WindowsCGIHandler_ServeHTTP_started _ _ _ _ _ _ _ HOS H1 H2 H3).
  destruct (block_or_read_error (run rt (windowsCmd h req order Getenv)))
    as [(lines & body & _ & Hb & _)|Herr]; [by destruct (Hnone lines body) |].
  unfold parseWindowsHeaders. rewrite Herr. reflexivity.
Qed.

Lemma WindowsCGIHandler_ServeHTTP_incomplete_block_witness :
  (forall lines body,
      ~ block_lines (run (rt_windows ("Location: /x" +:+ crlf +:+ crlf))
                         (windowsCmd h_plain req_xfoo [] (fun _ => ""))) lines body)
  /\ WindowsCGIHandler_ServeHTTP (rt_windows ("Location: /x" +:+ crlf +:+ crlf)) h_plain
                                 rw_fresh req_xfoo [] map_to_list (fun _ => "")
     = (Returned (mkResponse ∅ (Some 500)
                    ("CGI header error: error reading CGI headers: EOF" +:+ LFs)),
        Some (windowsCmd h_plain req_xfoo [] (fun _ => ""))).
Proof.
  assert (Hnone : forall lines body,
             ~ block_lines (run (rt_windows ("Location: /x" +:+ crlf +:+ crlf))
                                (windowsCmd h_plain req_xfoo [] (fun _ => ""))) lines body).
  { intros lines body Hb. apply (parseWindowsHeaders_from_block _ _ _ ∅ 200) in Hb.
    assert (Herr : parseWindowsHeaders_from
                     (run (rt_windows ("Location: /x" +:+ crlf +:+ crlf))
                          (windowsCmd h_plain req_xfoo [] (fun _ => ""))) ∅ 200
                   = Some (ParseError (ErrOther "error reading CGI headers: EOF")))
      by (vm_compute; reflexivity).
    rewrite Herr in Hb. discriminate. }
  split; [exact Hnone |].
  exact (WindowsCGIHandler_ServeHTTP_incomplete_block
           (rt_windows ("Location: /x" +:+ crlf +:+ crlf)) h_plain rw_fresh req_xfoo []
           map_to_list (fun _ => "") eq_refl eq_refl eq_refl eq_refl Hnone).
Defined.

(** X10. When the parsed status is 0 (a status line such as
    "Status: 000"), [WriteHeader] is not called: the headers are applied
    and the body is forwarded, and the response is left without an
    explicit status code. *)
Theorem WindowsCGIHandler_ServeHTTP_status_zero (rt : Runtime) (h : WindowsCGIHandler)
    (rw : Response) (req : Request) (order : list (string * list string))
    (range : http_Header -> list (string * list string)) (Getenv : string -> string)
    (lines : list string) (body : Reader) :
  GOOS rt = "windows" ->
  StdoutPipe_err rt = None -> StderrPipe_err rt = None -> Start_err rt = None ->
  block_lines (run rt (windowsCmd h req order Getenv)) lines body ->
  (parseHeaderLines lines ∅ 200).2 = 0 ->
  WindowsCGIHandler_ServeHTTP rt h rw req order range Getenv
  = (Returned
       (mkResponse (setHeaders (range (parseHeaderLines lines ∅ 200).1) (resp_Header rw))
                   (resp_code rw) (resp_body rw +:+ rd_data body)),
     Some (windowsCmd h req order Getenv)).
Proof.
  intros HOS H1 H2 H3 Hblock Hst.
  rewrite (WindowsCGIHandler_ServeHTTP_started _ _ _ _ _ _ _ HOS H1 H2 H3).
  pose proof (parseWindowsHeaders_from_block _ _ _ ∅ 200 Hblock) as Hparse.
  fold (parseWindowsHeaders (run rt (windowsCmd h req order Getenv))) in Hparse.
  rewrite Hparse, Hst. reflexivity.
Qed.

Lemma WindowsCGIHandler_ServeHTTP_status_zero_witness :
  block_lines (run (rt_windows ("Status: 000" +:+ LFs +:+ LFs +:+ "x"))
                   (windowsCmd h_plain req_xfoo [] (fun _ => "")))
              ["Status: 000"] (mkReader "x" EOF)
  /\ (parseHeaderLines ["Status: 000"] ∅ 200).2 = 0
  /\ WindowsCGIHandler_ServeHTTP (rt_windows ("Status: 000" +:+ LFs +:+ LFs +:+ "x")) h_plain
                                 rw_fresh req_xfoo [] map_to_list (fun _ => "")
     = (Returned (mkResponse ∅ None "x"),
        Some (windowsCmd h_plain req_xfoo [] (fun _ => ""))).
Proof.
  assert (Hb : block_lines (run (rt_windows ("Status: 000" +:+ LFs +:+ LFs +:+ "x"))
                                (windowsCmd h_plain req_xfoo [] (fun _ => "")))
                           ["Status: 000"] (mkReader "x" EOF)).
  { eapply block_line; [reflexivity | discriminate |]. apply block_end. reflexivity. }
  split; [exact Hb |]. split; [reflexivity |].
  exact (WindowsCGIHandler_ServeHTTP_status_zero
           (rt_windows ("Status: 000" +:+ LFs +:+ LFs +:+ "x")) h_plain rw_fresh req_xfoo []
           map_to_list (fun _ => "") ["Status: 000"] (mkReader "x" EOF)
           eq_refl eq_refl eq_refl eq_refl Hb eq_refl).
Defined.



(** The same status line on a response whose header is written already:
    the call of [WriteHeader] is ignored and the body is forwarded. *)
Example WriteHeader_after_the_header :
  response.WriteHeader (mkResponse ∅ (Some 200) "") 99
  = Returned (mkResponse ∅ (Some 200) "").
Proof. reflexivity. Qed.

End windows_handler.

(** ** Environment builder: the port, inherited names *)

Section environment_more.

Lemma before_cons_ne (sep b : ascii) (s : string) :
  b <> sep -> before sep (String b s) = String b (before sep s).
Proof.
  intros Hne. unfold before. simpl.
  destruct (Ascii.eqb_spec b sep); [done |].
  by destruct (strings.Index s sep).
Qed.

(** The first part of a split is the text in front of the first
    separator; the other parts come from the text behind it. *)
Lemma Split_from_head (cur s : string) (sep : ascii) :
  strings.Split_from cur s sep
  = (cur +:+ before sep s)
    :: match strings.Index s sep with
       | Some i => strings.Split_from "" (Bytes.drop (S i) s) sep
       | None => []
       end.
Proof.
  revert cur. induction s as [|b s IH]; intros cur.
  - simpl. unfold before. simpl. by rewrite app_empty_r.
  - simpl. destruct (Ascii.eqb_spec b sep) as [->|Hne].
    + unfold before. simpl. rewrite Ascii.eqb_refl. simpl. by rewrite app_empty_r.
    + rewrite IH, before_cons_ne, push_app by done.
      by destruct (strings.Index s sep).
Qed.

Lemma Index_app_sep (a b : string) (sep : ascii) :
  Bytes.contains sep a = false ->
  strings.Index (a +:+ String sep b) sep = Some (String.length a).
Proof.
  intros Hno. induction a as [|c a IH].
  - simpl. by rewrite Ascii.eqb_refl.
  - apply contains_cons_false in Hno as [Hc Hno]. rewrite app_cons. simpl.
    destruct (Ascii.eqb_spec c sep); [done |]. by rewrite (IH Hno).
Qed.

Lemma take_app_length (a b : string) : Bytes.take (String.length a) (a +:+ b) = a.
Proof.
  induction a as [|c a IH]; [by destruct b |]. rewrite app_cons. simpl. by rewrite IH.
Qed.

Lemma drop_behind_sep (a b : string) (sep : ascii) :
  Bytes.drop (S (String.length a)) (a +:+ String sep b) = b.
Proof. induction a as [|c a IH]; [done |]. rewrite app_cons. simpl. apply IH. Qed.

Lemma getPort_with_colon (req : Request) (a b : string) :
  Host req = a +:+ String ":" b ->
  Bytes.contains ":" a = false ->
  getPort req = before ":" b.
Proof.
  intros HHost Hno. unfold getPort, strings.Split.
  rewrite HHost, Split_from_head, (Index_app_sep a b ":" Hno).
  rewrite drop_behind_sep, Split_from_head. done.
Qed.

(** X12. [getPort] answers with the text between the first and the second
    colon of the [Host] (all that follows the first colon when there is no
    second one): "example.org:8080" gives "8080"; a bracketed IPv6
    literal such as "[::1]:8080" gives the empty string, the text between
    its first two colons. *)
Theorem getPort_between_colons (req : Request) (a b : string) :
  Host req = a +:+ String ":" b ->
  Bytes.contains ":" a = false ->
  getPort req = before ":" b.
Proof. apply getPort_with_colon. Qed.

Lemma getPort_between_colons_witness :
  Host (mkRequest "GET" "/" "" "HTTP/1.1" ∅ (BodyBuffer "") 0 [] "[::1]:8080" "" false)
  = "[" +:+ String ":" ":1]:8080"
  /\ Bytes.contains ":" "[" = false
  /\ getPort (mkRequest "GET" "/" "" "HTTP/1.1" ∅ (BodyBuffer "") 0 [] "[::1]:8080" "" false)
     = "".
Proof.
  split; [reflexivity |]. split; [reflexivity |].
  exact (getPort_between_colons
           (mkRequest "GET" "/" "" "HTTP/1.1" ∅ (BodyBuffer "") 0 [] "[::1]:8080" "" false)
           "[" ":1]:8080" eq_refl eq_refl).
Defined.

(** X13. For a [Host] without colon, [getPort] answers "443" when the
    request came over TLS and "80" otherwise. *)
Theorem getPort_default (req : Request) :
  Bytes.contains ":" (Host req) = false ->
  getPort req = if TLS req then "443" else "80".
Proof.
  intros Hno. unfold getPort, strings.Split. rewrite Split_from_head.
  apply Index_None_contains in Hno. by rewrite Hno.
Qed.

Lemma getPort_default_witness :
  Bytes.contains ":" (Host (req_chunked (mkReader "" EOF))) = false
  /\ getPort (req_chunked (mkReader "" EOF)) = "80".
Proof.
  split; [reflexivity |].
  exact (getPort_default (req_chunked (mkReader "" EOF)) eq_refl).
Defined.

Lemma passAll_omap (environ : list string) :
  passAll environ
  = omap (fun str =>
            match strings.Index str "=" with
            | Some pos => if (0 <? pos)%nat then Some (Bytes.take pos str) else None
            | None => None
            end) environ.
Proof.
  unfold passAll.
  assert (Hgen : forall acc,
             foldl (fun list str =>
                      match strings.Index str "=" with
                      | Some pos =>
                          if (0 <? pos)%nat then (list ++ [Bytes.take pos str])%list else list
                      | None => list
                      end) acc environ
             = (acc ++ omap (fun str =>
                               match strings.Index str "=" with
                               | Some pos =>
                                   if (0 <? pos)%nat then Some (Bytes.take pos str) else None
                               | None => None
                               end) environ)%list).
  { induction environ as [|str environ IH]; intros acc; simpl.
    - by rewrite app_nil_r.
    - rewrite IH. destruct (strings.Index str "=") as [pos|]; [|done].
      destruct (0 <? pos)%nat; [|done]. simpl. by rewrite <- app_assoc. }
  apply (Hgen []).
Qed.

Lemma passAll_cons (str : string) (environ : list string) :
  passAll (str :: environ)
  = match strings.Index str "=" with
    | Some pos =>
        if (0 <? pos)%nat then Bytes.take pos str :: passAll environ else passAll environ
    | None => passAll environ
    end.
Proof.
  rewrite !passAll_omap. simpl.
  destruct (strings.Index str "=") as [pos|]; [|done]. by destruct (0 <? pos)%nat.
Qed.

(** X14. [passAll] gives the names of the process environment: of entries
    [name=value] with a non-empty name free of [=] it returns the names,
    in order, whatever the values hold (also further [=]); an entry
    without [=] and an entry that starts with [=] contribute nothing. *)
Theorem passAll_names (vars : list (string * string)) (odd : string) :
  Forall (fun kv => kv.1 <> "" /\ Bytes.contains "=" kv.1 = false) vars ->
  Bytes.contains "=" odd = false \/ Bytes.take 1 odd = "=" ->
  passAll ((fun kv => kv.1 +:+ String "=" kv.2) <$> vars) = vars.*1
  /\ passAll (odd :: ((fun kv => kv.1 +:+ String "=" kv.2) <$> vars)) = vars.*1.
Proof.
  intros Hvars Hodd.
  assert (Hnames : passAll ((fun kv => kv.1 +:+ String "=" kv.2) <$> vars) = vars.*1).
  { induction Hvars as [|[k v] vars [Hk Hno] _ IH]; [done |].
    rewrite fmap_cons, passAll_cons. cbn [fst snd] in *.
    rewrite (Index_app_sep k v "=" Hno), take_app_length, IH.
    destruct k; [done | reflexivity]. }
  split; [exact Hnames |].
  rewrite passAll_cons, Hnames.
  destruct Hodd as [Hno | Hfirst].
  - apply Index_None_contains in Hno. by rewrite Hno.
  - destruct odd as [|c odd]; [done |]. injection Hfirst as ->. done.
Qed.

Lemma passAll_names_witness :
  Forall (fun kv : string * string => kv.1 <> "" /\ Bytes.contains "=" kv.1 = false)
         [("HOME", "/home/foo"); ("OPTS", "a=b")]
  /\ (Bytes.contains "=" "=C:" = false \/ Bytes.take 1 "=C:" = "=")
  /\ passAll ["=C:"; "HOME=/home/foo"; "OPTS=a=b"] = ["HOME"; "OPTS"].
Proof.
  assert (Hvars : Forall (fun kv : string * string =>
                            kv.1 <> "" /\ Bytes.contains "=" kv.1 = false)
                         [("HOME", "/home/foo"); ("OPTS", "a=b")]).
  { constructor; [split; [discriminate | reflexivity] |].
    constructor; [split; [discriminate | reflexivity] |]. constructor. }
  assert (Hodd : Bytes.contains "=" "=C:" = false \/ Bytes.take 1 "=C:" = "=")
    by (right; reflexivity).
  split; [exact Hvars |]. split; [exact Hodd |].
  exact (proj2 (passAll_names [("HOME", "/home/foo"); ("OPTS", "a=b")] "=C:" Hvars Hodd)).
Defined.

(** X15. The inherited part of the environment, its last part, holds for
    each name of [InheritEnv] that has a non-empty value in the process
    environment the entry [name=value], and nothing else: a name that is
    unset, or set to the empty string, is not passed on. *)
Theorem buildEnv_inherited (h : WindowsCGIHandler) (req : Request)
    (order : list (string * list string)) (Getenv : string -> string) :
  exists inherited,
    buildEnv h req order Getenv
    = (fixedEnv req ++ omap headerVar order ++ Env (Handler h) ++ inherited)%list
    /\ (forall entry,
           entry ∈ inherited
           <-> exists key, key ∈ InheritEnv (Handler h) /\ Getenv key <> ""
                           /\ entry = key +:+ "=" +:+ Getenv key)
    /\ (length inherited <= length (InheritEnv (Handler h)))%nat.
Proof.
  exists (omap (inheritedVar Getenv) (InheritEnv (Handler h))).
  split; [apply buildEnv_parts |]. split.
  - intros entry. rewrite list_elem_of_omap. unfold inheritedVar. split.
    + intros (key & Hin & Hvar).
      destruct (String.eqb_spec (Getenv key) "") as [|Hne]; [done |].
      injection Hvar as <-. by exists key.
    + intros (key & Hin & Hne & ->). exists key. split; [done |].
      by destruct (String.eqb_spec (Getenv key) "").
  - induction (InheritEnv (Handler h)) as [|key keys IH]; simpl; [done |].
    destruct (inheritedVar Getenv key); simpl;
      [apply le_n_S | apply Nat.le_le_succ_r]; exact IH.
Qed.

End environment_more.

(** ** The handler of cgi.go: what reframing leaves alone, and its files *)

Section reframing_more.

(** The files after the reframing step: a request that comes back with a
    temporary file has it under the name [os.CreateTemp] gave, and
    removing it gives the files as they were; in every other case the
    files are as they were. *)
Lemma reframe_files (c : CGI) (r : Request) (mem : Memory) (fs fs' : FS)
    (res : outcome (Request * option string)) :
  fs_files fs !! fs_temp_name fs = None ->
  reframe c r mem fs = (res, fs') ->
  match res with
  | Returned (_, Some tmp) => tmp = fs_temp_name fs /\ os.Remove fs' tmp = fs
  | _ => fs' = fs
  end.
Proof.
  destruct fs as [files tmp e1 e2 e3]. simpl. intros Hfresh. unfold reframe.
  assert (Hdel : forall x, delete tmp (<[tmp := x]> files) = files).
  { intros x. by apply delete_insert_id. }
  destruct (TransferEncoding r) as [|te0 rest]; [by intros [= <- <-] |].
  destruct (String.eqb te0 "chunked"); [|by intros [= <- <-]].
  destruct (reserve c mem) as [cap|e|msg]; [|by intros [= <- <-]..].
  destruct (io.CopyN mem cap _ (BufferLimit c)) as [[[[buf size] err] src]|e|msg];
    [|by intros [= <- <-]..].
  destruct (failure err); [by intros [= <- <-] |].
  destruct (size =? BufferLimit c); [|by intros [= <- <-]].
  unfold os.CreateTemp, os.Write, io.CopyBuffer, os.Write, os.Seek, os.Remove,
    fs_with_files. simpl.
  destruct e1; [by intros [= <- <-] |]. simpl.
  destruct e2; simpl.
  { intros [= <- <-]. by rewrite Hdel. }
  rewrite lookup_insert_eq, insert_insert_eq. simpl.
  destruct (Bytes.len buf =? 0); simpl.
  { intros [= <- <-]. by rewrite Hdel. }
  destruct (Bytes.len (rd_data src) =? 0); simpl;
    rewrite ?lookup_insert_eq, ?insert_insert_eq; simpl;
    destruct (decide (rd_end src = EOF)); simpl;
    try (intros [= <- <-]; by rewrite Hdel);
    destruct e3; simpl; intros [= <- <-]; simpl; by rewrite Hdel.
Qed.

(** X16. A request whose transfer encoding does not start with "chunked"
    (none at all, or another coding in front, as in "gzip, chunked") is
    not reframed: [ServeHTTP] hands the very request to the CGI handler,
    body, headers and content length as they came, creates no file and
    defers no removal. *)
Theorem CGI_ServeHTTP_not_chunked {R : Type} `{Replacer R} (c : CGI) (repl : R)
    (r : Request) (mem : Memory) (fs : FS) (environ : list string) :
  (forall te rest, TransferEncoding r = te :: rest -> te <> "chunked") ->
  reframe c r mem fs = (Returned (r, None), fs)
  /\ exists inv,
      CGI_ServeHTTP c repl r mem fs environ = (Returned inv, fs)
      /\ inv_request inv = r /\ inv_tempfile inv = None.
Proof.
  intros HTE.
  assert (Hre : reframe c r mem fs = (Returned (r, None), fs)).
  { unfold reframe. destruct (TransferEncoding r) as [|te0 rest]; [done |].
    destruct (String.eqb_spec te0 "chunked") as [->|_]; [|done].
    by destruct (HTE "chunked" rest). }
  split; [exact Hre |].
  destruct (CGI_ServeHTTP_reframed c repl r r mem fs fs environ None Hre)
    as (inv & ? & ? & ?).
  by exists inv.
Qed.

Lemma CGI_ServeHTTP_not_chunked_witness :
  (forall te rest,
      TransferEncoding
        (mkRequest "POST" "/cgi/hello" "" "HTTP/1.1" ∅ (BodyStream (mkReader "abc" EOF))
                   (-1) ["gzip"; "chunked"] "example.org" "" false)
      = te :: rest -> te <> "chunked")
  /\ reframe cgi_hello
       (mkRequest "POST" "/cgi/hello" "" "HTTP/1.1" ∅ (BodyStream (mkReader "abc" EOF))
                  (-1) ["gzip"; "chunked"] "example.org" "" false) mem_ok fs_ok
     = (Returned
          (mkRequest "POST" "/cgi/hello" "" "HTTP/1.1" ∅ (BodyStream (mkReader "abc" EOF))
                     (-1) ["gzip"; "chunked"] "example.org" "" false, None), fs_ok).
Proof.
  assert (HTE : forall te rest,
             TransferEncoding
               (mkRequest "POST" "/cgi/hello" "" "HTTP/1.1" ∅
                          (BodyStream (mkReader "abc" EOF))
                          (-1) ["gzip"; "chunked"] "example.org" "" false)
             = te :: rest -> te <> "chunked").
  { intros te rest [= <- <-]. discriminate. }
  split; [exact HTE |].
  exact (proj1 (CGI_ServeHTTP_not_chunked cgi_hello tt _ mem_ok fs_ok [] HTE)).
Defined.

Lemma reframe_failure_files (c : CGI) (r : Request) (mem : Memory) (fs fs' : FS)
    (e : error) :
  fs_files fs !! fs_temp_name fs = None ->
  reframe c r mem fs = (Failed e, fs') ->
  fs' = fs.
Proof. intros Hfresh Hre. exact (reframe_files _ _ _ _ _ _ Hfresh Hre). Qed.

(** X17. Whenever the reframing step does not come back with a request
    (a read error, a failing file operation, a panic), the files are as
    they were before: a temporary file that had been created is removed
    again. ([os.CreateTemp] picking a name that is not in use.) *)
Theorem reframe_failure_leaves_no_file (c : CGI) (r : Request) (mem : Memory)
    (fs fs' : FS) (res : outcome (Request * option string)) :
  fs_files fs !! fs_temp_name fs = None ->
  reframe c r mem fs = (res, fs') ->
  (forall x, res <> Returned x) ->
  fs' = fs.
Proof.
  intros Hfresh Hre Hfail. pose proof (reframe_files _ _ _ _ _ _ Hfresh Hre) as Hfiles.
  destruct res as [[r' [tmp|]]|e|msg]; try done. by destruct (Hfail (r', Some tmp)).
Qed.

Lemma reframe_failure_leaves_no_file_witness :
  fs_files fs_ok !! fs_temp_name fs_ok = None
  /\ reframe cgi_hello (req_chunked (mkReader "abcdefgh" (ErrOther "reset"))) mem_ok fs_ok
     = (Failed (ErrOther "reset"), fs_ok)
  /\ (forall x : Request * option string, Failed (ErrOther "reset") <> Returned x).
Proof.
  assert (Hre : exists fs',
             reframe cgi_hello (req_chunked (mkReader "abcdefgh" (ErrOther "reset"))) mem_ok fs_ok
             = (Failed (ErrOther "reset"), fs')).
  { eexists. reflexivity. }
  destruct Hre as [fs' Hre].
  assert (Hne : forall x : Request * option string, Failed (ErrOther "reset") <> Returned x)
    by discriminate.
  pose proof (reframe_failure_leaves_no_file cgi_hello _ mem_ok fs_ok fs' _ eq_refl Hre Hne)
    as Hfs.
  rewrite Hfs in Hre. split; [reflexivity |]. split; [exact Hre | exact Hne].
Defined.

(** X18. When [ServeHTTP] has handed a request to the CGI handler and
    returns, the deferred removal has put the files back as they were
    before the request: no temporary file outlives the request. *)
Theorem CGI_ServeHTTP_return_restores_files {R : Type} `{Replacer R} (c : CGI) (repl : R)
    (r : Request) (mem : Memory) (fs fs' : FS) (environ : list string) (inv : invocation) :
  fs_files fs !! fs_temp_name fs = None ->
  CGI_ServeHTTP c repl r mem fs environ = (Returned inv, fs') ->
  CGI_ServeHTTP_return inv fs' = fs.
Proof.
  intros Hfresh. unfold CGI_ServeHTTP.
  destruct (reframe c r mem fs) as [[[r' tmp]|e|msg] fs1] eqn:Hre; [|discriminate..].
  intros [= <- <-]. unfold CGI_ServeHTTP_return. simpl.
  pose proof (reframe_files _ _ _ _ _ _ Hfresh Hre) as Hfiles.
  destruct tmp as [tmp|]; [by destruct Hfiles | done].
Qed.

Lemma CGI_ServeHTTP_return_restores_files_witness :
  fs_files fs_ok !! fs_temp_name fs_ok = None
  /\ exists inv fs',
      CGI_ServeHTTP cgi_hello tt (req_chunked (mkReader "abcdefgh" EOF)) mem_ok fs_ok []
      = (Returned inv, fs')
      /\ fs_files fs' !! "/tmp/cgi_body_1" = Some "abcdefgh"
      /\ CGI_ServeHTTP_return inv fs' = fs_ok.
Proof.
  split; [reflexivity |]. eexists _, _. split; [reflexivity |].
  split; [vm_compute; reflexivity |].
  exact (CGI_ServeHTTP_return_restores_files cgi_hello tt
           (req_chunked (mkReader "abcdefgh" EOF)) mem_ok fs_ok _ [] _ eq_refl eq_refl).
Defined.

(** A request that comes back from the reframing step is the request
    itself or the request reframed. *)
Lemma reframe_Returned_cases (c : CGI) (r r' : Request) (mem : Memory) (fs fs' : FS)
    (tmp : option string) :
  reframe c r mem fs = (Returned (r', tmp), fs') ->
  r' = r \/ exists body size, r' = reframed r body size.
Proof.
  unfold reframe.
  destruct (TransferEncoding r) as [|te0 rest]; [intros [= <- <- <-]; by left |].
  destruct (String.eqb te0 "chunked"); [|intros [= <- <- <-]; by left].
  destruct (reserve c mem) as [cap|e|msg]; [|discriminate..].
  destruct (io.CopyN mem cap _ (BufferLimit c)) as [[[[buf size] err] src]|e|msg];
    [|discriminate..].
  destruct (failure err); [discriminate |].
  destruct (size =? BufferLimit c); [|intros [= <- <- <-]; right; by eexists _, _].
  destruct (os.CreateTemp fs) as [[tempfile [e|]] fs1]; [discriminate |].
  destruct (os.Write fs1 tempfile buf) as [[n [e|]] fs2]; [discriminate |].
  destruct (io.CopyBuffer fs2 tempfile src buf) as [[[n' [e|]]|e|msg] fs3];
    try discriminate.
  destruct (os.Seek fs3 tempfile); [discriminate |].
  intros [= <- <- <-]. right. by eexists _, _.
Qed.

(** X19. The reframing step touches nothing of the request but the body,
    the transfer encoding, the content length and the headers
    Transfer-Encoding and Content-Length: method, path, query, protocol,
    host, remote address and TLS state are handed on as they came, and so
    is every other header with all its values. *)
Theorem reframe_keeps_other_fields (c : CGI) (r r' : Request) (mem : Memory)
    (fs fs' : FS) (tmp : option string) :
  reframe c r mem fs = (Returned (r', tmp), fs') ->
  Method r' = Method r /\ URL_Path r' = URL_Path r /\ URL_RawQuery r' = URL_RawQuery r
  /\ Proto r' = Proto r /\ Host r' = Host r /\ RemoteAddr r' = RemoteAddr r
  /\ TLS r' = TLS r
  /\ forall k, k <> "Transfer-Encoding" -> k <> "Content-Length" ->
               Header r' !! k = Header r !! k.
Proof.
  intros Hre. apply reframe_Returned_cases in Hre as [->|(body & size & ->)]; [done |].
  repeat split. intros k Hte Hcl. unfold reframed, Header.Add, Header.Del. simpl.
  rewrite canonical_Transfer_Encoding, canonical_Content_Length.
  by rewrite lookup_insert_ne, lookup_delete_ne.
Qed.

Lemma reframe_keeps_other_fields_witness :
  reframe cgi_hello (req_chunked (mkReader "abc" EOF)) mem_ok fs_ok
  = (Returned (reframed (req_chunked (mkReader "abc" EOF)) (BodyBuffer "abc") 3, None),
     fs_ok)
  /\ Method (reframed (req_chunked (mkReader "abc" EOF)) (BodyBuffer "abc") 3) = "POST".
Proof.
  split; [reflexivity |].
  exact (proj1 (reframe_keeps_other_fields cgi_hello (req_chunked (mkReader "abc" EOF)) _
                  mem_ok fs_ok fs_ok None eq_refl)).
Defined.

Lemma CopyN_short_error (mem : Memory) (cap : Z) (data : string) (msg : string) (n : Z) :
  Bytes.len data < n ->
  Buffer.ReadFrom mem cap (Bytes.len data) = Returned tt ->
  io.CopyN mem cap (mkReader data (ErrOther msg)) n
  = Returned ((data, Bytes.len data, Some (ErrOther msg)), mkReader "" (ErrOther msg)).
Proof.
  intros Hlt Hroom. unfold io.CopyN, io.CopyN_bytes; simpl.
  assert (Hn : (String.length data <= Z.to_nat n)%nat) by (unfold Bytes.len in Hlt; lia).
  rewrite (take_all _ _ Hn), (drop_all _ _ Hn).
  destruct (Bytes.len data =? n) eqn:Heq; [apply Z.eqb_eq in Heq; lia |].
  destruct (Bytes.len data <? n) eqn:Hltb; [| apply Z.ltb_ge in Hltb; lia].
  simpl. by rewrite Hroom.
Qed.

(** X20. The body that replaces a chunked body (read without error, for
    a positive limit that the buffer takes, the file operations
    succeeding) delivers, read from its start, exactly the bytes of the
    original body, whether it is the in-memory buffer or the temporary
    file; and the content length of the request is their number. *)
Theorem reframed_body_is_the_payload (c : CGI) (r : Request) (mem : Memory) (fs : FS)
    (data : string) (te : list string) :
  TransferEncoding r = "chunked" :: te ->
  body_reader (Body r) fs = mkReader data EOF ->
  0 < BufferLimit c < 2 ^ 63 ->
  Bytes.len data < 2 ^ 63 ->
  buffer_takes c mem (Z.min (Bytes.len data) (BufferLimit c)) ->
  fs_create_err fs = None -> fs_write_err fs = None -> fs_seek_err fs = None ->
  exists r' tmp fs',
    reframe c r mem fs = (Returned (r', tmp), fs')
    /\ body_reader (Body r') fs' = mkReader data EOF
    /\ ContentLength r' = Bytes.len data.
Proof.
  intros HTE Hbody HL HS Hbuf Hcreate Hwrite Hseek.
  destruct (Z.lt_ge_cases (Bytes.len data) (BufferLimit c)) as [Hlt|Hge].
  - rewrite Z.min_l in Hbuf by lia.
    exists (reframed r (BodyBuffer data) (Bytes.len data)), None, fs.
    split; [|done]. by apply (reframe_in_buffer c r mem fs data te).
  - rewrite Z.min_r in Hbuf by lia.
    rewrite (reframe_spill c r mem fs data EOF te HTE Hbody) by (done || lia).
    simpl. rewrite Hseek. eexists _, _, _. split; [reflexivity |]. simpl.
    by rewrite lookup_insert_eq.
Qed.

Lemma reframed_body_is_the_payload_witness :
  TransferEncoding (req_chunked (mkReader "abcdefgh" EOF)) = "chunked" :: []
  /\ body_reader (Body (req_chunked (mkReader "abcdefgh" EOF))) fs_ok
     = mkReader "abcdefgh" EOF
  /\ 0 < BufferLimit cgi_hello < 2 ^ 63
  /\ Bytes.len "abcdefgh" < 2 ^ 63
  /\ buffer_takes cgi_hello mem_ok (Z.min (Bytes.len "abcdefgh") (BufferLimit cgi_hello))
  /\ fs_create_err fs_ok = None /\ fs_write_err fs_ok = None /\ fs_seek_err fs_ok = None
  /\ exists r' tmp fs',
      reframe cgi_hello (req_chunked (mkReader "abcdefgh" EOF)) mem_ok fs_ok
      = (Returned (r', tmp), fs')
      /\ body_reader (Body r') fs' = mkReader "abcdefgh" EOF
      /\ ContentLength r' = 8.
Proof.
  assert (Hbuf : buffer_takes cgi_hello mem_ok
                   (Z.min (Bytes.len "abcdefgh") (BufferLimit cgi_hello))).
  { exists 516. split; reflexivity. }
  split; [reflexivity |]. split; [reflexivity |]. split; [split; reflexivity |].
  split; [reflexivity |]. split; [exact Hbuf |].
  repeat (split; [reflexivity |]).
  exact (reframed_body_is_the_payload cgi_hello (req_chunked (mkReader "abcdefgh" EOF))
           mem_ok fs_ok "abcdefgh" [] eq_refl eq_refl (conj eq_refl eq_refl) eq_refl Hbuf
           eq_refl eq_refl eq_refl).
Defined.

(** X21. When the chunked body ends in a read error other than a clean
    end of stream (for a positive limit that the buffer takes; creating
    and writing the temporary file succeeding where the limit is
    reached), [ServeHTTP] returns that error: the CGI handler is not
    invoked, and the files are as they were. *)
Theorem CGI_ServeHTTP_read_error {R : Type} `{Replacer R} (c : CGI) (repl : R)
    (r : Request) (mem : Memory) (fs : FS) (environ : list string) (data msg : string)
    (te : list string) :
  TransferEncoding r = "chunked" :: te ->
  body_reader (Body r) fs = mkReader data (ErrOther msg) ->
  0 < BufferLimit c < 2 ^ 63 ->
  Bytes.len data < 2 ^ 63 ->
  buffer_takes c mem (Z.min (Bytes.len data) (BufferLimit c)) ->
  fs_files fs !! fs_temp_name fs = None ->
  fs_create_err fs = None -> fs_write_err fs = None ->
  reframe c r mem fs = (Failed (ErrOther msg), fs)
  /\ CGI_ServeHTTP c repl r mem fs environ = (Failed (ErrOther msg), fs).
Proof.
  intros HTE Hbody HL HS Hbuf Hfresh Hcreate Hwrite.
  assert (Hre : exists fs', reframe c r mem fs = (Failed (ErrOther msg), fs')).
  { destruct (Z.lt_ge_cases (Bytes.len data) (BufferLimit c)) as [Hlt|Hge].
    - rewrite Z.min_l in Hbuf by lia. destruct Hbuf as (cap & Hres & Hroom).
      exists fs. unfold reframe. rewrite HTE, Hbody. simpl. rewrite Hres.
      by rewrite (CopyN_short_error _ _ _ _ _ Hlt Hroom).
    - rewrite Z.min_r in Hbuf by lia.
      rewrite (reframe_spill c r mem fs data (ErrOther msg) te HTE Hbody) by (done || lia).
      by eexists. }
  destruct Hre as [fs' Hre].
  assert (fs' = fs) as ->.
  { eapply reframe_failure_files; [exact Hfresh | exact Hre]. }
  split; [exact Hre |]. unfold CGI_ServeHTTP. by rewrite Hre.
Qed.

Lemma CGI_ServeHTTP_read_error_witness :
  TransferEncoding (req_chunked (mkReader "abcdefgh" (ErrOther "reset"))) = "chunked" :: []
  /\ body_reader (Body (req_chunked (mkReader "abcdefgh" (ErrOther "reset")))) fs_ok
     = mkReader "abcdefgh" (ErrOther "reset")
  /\ 0 < BufferLimit cgi_hello < 2 ^ 63
  /\ Bytes.len "abcdefgh" < 2 ^ 63
  /\ buffer_takes cgi_hello mem_ok (Z.min (Bytes.len "abcdefgh") (BufferLimit cgi_hello))
  /\ fs_files fs_ok !! fs_temp_name fs_ok = None
  /\ fs_create_err fs_ok = None /\ fs_write_err fs_ok = None
  /\ CGI_ServeHTTP cgi_hello tt (req_chunked (mkReader "abcdefgh" (ErrOther "reset")))
                   mem_ok fs_ok []
     = (Failed (ErrOther "reset"), fs_ok).
Proof.
  assert (Hbuf : buffer_takes cgi_hello mem_ok
                   (Z.min (Bytes.len "abcdefgh") (BufferLimit cgi_hello))).
  { exists 516. split; reflexivity. }
  split; [reflexivity |]. split; [reflexivity |]. split; [split; reflexivity |].
  split; [reflexivity |]. split; [exact Hbuf |].
  repeat (split; [reflexivity |]).
  exact (proj2 (CGI_ServeHTTP_read_error cgi_hello tt
                  (req_chunked (mkReader "abcdefgh" (ErrOther "reset"))) mem_ok fs_ok []
                  "abcdefgh" "reset" [] eq_refl eq_refl (conj eq_refl eq_refl) eq_refl
                  Hbuf eq_refl eq_refl eq_refl)).
Defined.

Lemma prefix_drop (p s : string) :
  String.prefix p s = true -> s = p +:+ Bytes.drop (String.length p) s.
Proof.
  revert s. induction p as [|a p IH]; intros s; [by destruct s |].
  destruct s as [|b s]; [discriminate |]. simpl.
  destruct (Ascii.ascii_dec a b) as [->|]; [|discriminate].
  intros Hp. rewrite app_cons. f_equal. by apply IH.
Qed.

(** X22. [ServeHTTP] starts the handler's [Env] with PATH_INFO,
    SCRIPT_FILENAME and SCRIPT_NAME. SCRIPT_NAME is the configured script
    name after placeholder replacement; PATH_INFO is the request path
    with that prefix cut off, so that SCRIPT_NAME followed by PATH_INFO is
    the request path; when the path does not start with the script name,
    PATH_INFO is the whole path. *)
Theorem CGI_ServeHTTP_script_path {R : Type} `{Replacer R} (c : CGI) (repl : R)
    (r : Request) (mem : Memory) (fs fs' : FS) (environ : list string) (inv : invocation) :
  CGI_ServeHTTP c repl r mem fs environ = (Returned inv, fs') ->
  exists scriptPath filename rest,
    Env (inv_handler inv)
    = ("PATH_INFO=" +:+ scriptPath) :: ("SCRIPT_FILENAME=" +:+ filename)
      :: ("SCRIPT_NAME=" +:+ repl_ReplaceAll repl (ScriptName c) "") :: rest
    /\ filename = Path (inv_handler inv)
    /\ (URL_Path r = repl_ReplaceAll repl (ScriptName c) "" +:+ scriptPath
        \/ String.prefix (repl_ReplaceAll repl (ScriptName c) "") (URL_Path r) = false
           /\ scriptPath = URL_Path r).
Proof.
  unfold CGI_ServeHTTP.
  destruct (reframe c r mem fs) as [[[r' tmp]|e|msg] fs1]; [|discriminate..].
  intros [= <- <-]. simpl. eexists _, _, _. split; [reflexivity |]. split; [done |].
  unfold strings.TrimPrefix.
  destruct (String.prefix _ (URL_Path r)) eqn:Hp; [left; by apply prefix_drop | by right].
Qed.

Lemma CGI_ServeHTTP_script_path_witness :
  exists inv,
    CGI_ServeHTTP cgi_hello tt req_xfoo mem_ok fs_ok [] = (Returned inv, fs_ok)
    /\ exists scriptPath filename rest,
        Env (inv_handler inv)
        = ("PATH_INFO=" +:+ scriptPath) :: ("SCRIPT_FILENAME=" +:+ filename)
          :: "SCRIPT_NAME=/cgi" :: rest
        /\ filename = "/bin/hello"
        /\ ("/cgi/hello" = "/cgi" +:+ scriptPath
            \/ String.prefix "/cgi" "/cgi/hello" = false /\ scriptPath = "/cgi/hello").
Proof.
  eexists. split; [reflexivity |].
  exact (CGI_ServeHTTP_script_path cgi_hello tt req_xfoo mem_ok fs_ok fs_ok [] _ eq_refl).
Defined.

End reframing_more.
